(** * kamailio_exporter: the stats acquisition and metric-mapping pipeline

    A shallow embedding of [statscollector.go] and the properties of its
    specification.  Go strings are byte strings ([string]); Go [int] values
    are [Z]; the flat stat map ([map[string]string]) is a [gmap string string];
    sending on the metric channel is modelled by returning the list of metrics
    sent, in order. *)

From Stdlib Require Import ZArith String Ascii List Bool Lia.
From Stdlib Require Import Decimal DecimalString DecimalPos DecimalN DecimalZ.
From Stdlib Require Import SpecFloat.
From stdpp Require Import base option list strings gmap fin_maps.

Local Open Scope string_scope.
Local Open Scope list_scope.
Local Open Scope Z_scope.

(** ** Go values shared by all packages *)

(** A Go [error] value (only its presence matters to this program). *)
Inductive error : Type :=
| errorString (msg : string).

(** The result of a Go function returning [(A, error)], extended with the
    run-time panic that aborts the goroutine (and, uncaught, the process). *)
Inductive outcome (A : Type) : Type :=
| Ok (a : A)
| Err (e : error)
| Panic (reason : string).
Arguments Ok {A} a.
Arguments Err {A} e.
Arguments Panic {A} reason.

(** ** Package [strings] *)

Module gostrings.

(** [s[n:]] for [n <= len(s)]. *)
Fixpoint drop (n : nat) (s : string) : string :=
  match n, s with
  | O, _ => s
  | S n', String _ s' => drop n' s'
  | S _, EmptyString => EmptyString
  end.

(** [strings.HasPrefix]: [len(s) >= len(prefix) && s[:len(prefix)] == prefix]. *)
Definition HasPrefix (s prefix : string) : bool :=
  (String.length prefix <=? String.length s)%nat
  && String.eqb (String.substring 0 (String.length prefix) s) prefix.

(** [strings.HasSuffix]:
    [len(s) >= len(suffix) && s[len(s)-len(suffix):] == suffix]. *)
Definition HasSuffix (s suffix : string) : bool :=
  (String.length suffix <=? String.length s)%nat
  && String.eqb (drop (String.length s - String.length suffix) s) suffix.

(** [strings.TrimPrefix]. *)
Definition TrimPrefix (s prefix : string) : string :=
  if HasPrefix s prefix then drop (String.length prefix) s else s.

Definition isASCIIbyte (c : ascii) : bool := (N_of_ascii c <? 128)%N.

Fixpoint isASCII (s : string) : bool :=
  match s with
  | EmptyString => true
  | String c s' => isASCIIbyte c && isASCII s'
  end.

(** The byte-wise lowering of the ASCII fast path: ['A'..'Z'] gets
    ['a' - 'A'] added, every other byte is kept. *)
Definition lowerByte (c : ascii) : ascii :=
  let n := N_of_ascii c in
  if ((65 <=? n) && (n <=? 90))%N then ascii_of_N (n + 32) else c.

Fixpoint lowerASCII (s : string) : string :=
  match s with
  | EmptyString => EmptyString
  | String c s' => String (lowerByte c) (lowerASCII s')
  end.

(** [strings.ToLower].  An ASCII-only string is lowered byte by byte; a
    string with a byte [>= utf8.RuneSelf] goes through
    [Map(unicode.ToLower, s)], which is the parameter [unicodeLower]. *)
Definition ToLower (unicodeLower : string -> string) (s : string) : string :=
  if isASCII s then lowerASCII s else unicodeLower s.

End gostrings.

(** ** Package [strconv] *)

Module strconv.

(** Go's [int] on the 64-bit platforms the exporter is built for. *)
Definition isInt (n : Z) : Prop := - 2 ^ 63 <= n < 2 ^ 63.

(** [strconv.Itoa]: the canonical decimal text, with a leading [-] for a
    negative number. *)
Definition Itoa (n : Z) : string := NilZero.string_of_int (Z.to_int n).

(** [float64]: IEEE-754 binary64. *)
Definition float64 : Type := spec_float.

(** The binary64 nearest (ties to even) to the integer [n], negated when
    [neg]. *)
Definition roundInteger (neg : bool) (n : Z) : float64 :=
  binary_normalize 53 1024 (if neg then - n else n) 0 neg.

(** The least integer that rounds to infinity: half an ulp above the
    largest finite binary64. *)
Definition overflowBound : Z := 2 ^ 1024 - 2 ^ 970.

Definition readSign (s : string) : bool * string :=
  match s with
  | String "+" r => (false, r)
  | String "-" r => (true, r)
  | _ => (false, s)
  end.

(** [strconv.ParseFloat(s, 64)], [None] when it returns an error.  On an
    optionally signed, non-empty string of decimal digits the result is
    the correctly rounded integer, [ErrRange] when that is infinite; the
    empty string is a syntax error.  Every other string (fractions,
    exponents, hexadecimal, underscores, [Inf], [NaN]) is left to the
    parameter [rest]. *)
Definition ParseFloat (rest : string -> option float64) (s : string)
  : option float64 :=
  let (neg, r) := readSign s in
  match NilZero.uint_of_string r with
  | Some d =>
      let n := Z.of_uint d in
      if n <? overflowBound then Some (roundInteger neg n) else None
  | None => if String.eqb s "" then None else rest s
  end.

End strconv.

(** ** Package [binrpc] (the decoded reply records) *)

Module binrpc.

(** Modelled from the spec: [binrpc.Record] and its accessors belong to
    the binrpc library, not to this repository.  Section 3: a decoded
    record is a value that carries its declared wire type; a struct
    exposes its ordered items, each a key and a record.  An accessor
    returns the value when the record has the type asked for, and the zero
    value with an error when it has not. *)
#[warnings="-register-all"]
Inductive RawRecord : Type :=
| TypeInt (n : Z)
| TypeString (s : string)
| TypeDouble (d : strconv.float64)
| TypeStruct (items : list (string * RawRecord))
| TypeArray (elems : list RawRecord)
| TypeBytes (b : string).

Record StructItem : Type := mkStructItem { Key : string; Value : RawRecord }.

Definition typeError : error := errorString "type error".

(** [record.StructItems()]: the items of a struct, [(nil, err)] for a
    record of any other type. *)
Definition StructItems (r : RawRecord) : list StructItem * option error :=
  match r with
  | TypeStruct items => (map (fun kv => mkStructItem (fst kv) (snd kv)) items, None)
  | _ => ([], Some typeError)
  end.

(** [record.Int()]: [(0, err)] unless the record is an integer. *)
Definition Int (r : RawRecord) : Z * option error :=
  match r with
  | TypeInt n => (n, None)
  | _ => (0, Some typeError)
  end.

(** [record.String()]: [("", err)] unless the record is a string. *)
Definition String (r : RawRecord) : string * option error :=
  match r with
  | TypeString s => (s, None)
  | _ => ("", Some typeError)
  end.

End binrpc.

(** ** Package [prometheus] *)

Module prometheus.

Inductive ValueType : Type := CounterValue | GaugeValue | UntypedValue.

(** [prometheus.Labels] is [map[string]string]. *)
Definition Labels : Type := gmap string string.

Record Desc : Type := mkDesc {
  fqName : string;
  help : string;
  variableLabels : list string;
  constLabelPairs : Labels
}.

Definition NewDesc (fqName help : string) (variableLabels : list string)
    (constLabels : Labels) : Desc :=
  mkDesc fqName help variableLabels constLabels.

(** A constant metric: what [NewConstMetric] builds and the collector
    sends to the registry. *)
Record Metric : Type := mkMetric {
  desc : Desc;
  valType : ValueType;
  val : strconv.float64;
  labelValues : list string
}.

Definition errInconsistentCardinality : error :=
  errorString "inconsistent label cardinality".

(** Modelled from the spec: [prometheus.NewConstMetric] belongs to the
    client library, not to this repository.  Section 4.4: the label count
    supplied at emission must match the descriptor's label schema exactly,
    otherwise the constructor fails (and the caller skips the sample). *)
Definition NewConstMetric (d : Desc) (valueType : ValueType)
    (value : strconv.float64) (labelValues : list string) : Metric + error :=
  if (length labelValues =? length (variableLabels d))%nat
  then inl (mkMetric d valueType value labelValues)
  else inr errInconsistentCardinality.

End prometheus.

(** ** Package [net] and the packet layer, as seen by the collector *)

Module net.

Definition Conn : Type := nat.
Definition Cookie : Type := string.

(** The monitored process and the path to it: what dialling, writing a
    request packet and reading the reply packet return. *)
Record Network : Type := mkNetwork {
  Dial : string -> string -> Conn + error;
  WritePacket : Conn -> string -> list string -> Cookie + error;
  ReadPacket : Conn -> Cookie -> list binrpc.RawRecord + error
}.

(** The network operations a call performs, in order. *)
Inductive Event : Type :=
| Dialed (network address : string)
| Wrote (conn : Conn) (command : string) (params : list string)
| ReadReply (conn : Conn) (cookie : Cookie)
| Closed (conn : Conn).

End net.

(** ** The collector *)

(** MemoryEntry is a struct to store PKG memory values. *)
Record MemoryEntry : Type := mkMemoryEntry {
  Entry : string;
  Pid : string;
  Rank : string;
  Used : string;
  Free : string;
  RealUsed : string;
  TotalSize : string;
  TotalFrags : string
}.

(** The zero value [MemoryEntry{}]. *)
Definition emptyMemoryEntry : MemoryEntry :=
  mkMemoryEntry "" "" "" "" "" "" "" "".

Record StatsCollector : Type := mkStatsCollector {
  socketPath : string;
  kamailioHost : string;
  kamailioPort : Z
}.

(** *** Sample configurations, replies and maps *)

(** The default socket path, no host. *)
Definition socketOnly : StatsCollector :=
  mkStatsCollector "/var/run/kamailio/kamailio_ctl" "" 3012.

(** Both a socket path and a host are configured. *)
Definition bothConfigured : StatsCollector :=
  mkStatsCollector "/var/run/kamailio/kamailio_ctl" "127.0.0.1" 3012.

(** A Kamailio that accepts the connection and replies with [records]. *)
Definition replyWith (records : list binrpc.RawRecord) : net.Network :=
  net.mkNetwork (fun _ _ => inl 1%nat) (fun _ _ _ => inl "cookie")
    (fun _ _ => inl records).

(** Nobody listens. *)
Definition unreachable : net.Network :=
  net.mkNetwork (fun _ _ => inr (errorString "connection refused"))
    (fun _ _ _ => inl "cookie") (fun _ _ => inl []).

(** A reply packet that cannot be decoded. *)
Definition garbledReply : net.Network :=
  net.mkNetwork (fun _ _ => inl 1%nat) (fun _ _ _ => inl "cookie")
    (fun _ _ => inr (errorString "invalid packet")).

(** The scenario map of the specification. *)
Definition scenarioStats : gmap string string :=
  <["core.rcv_requests" := "42"]>
    (<["sl.200_replies" := "10"]> (<["script.custom_total" := "5"]> ∅)).

(** The scenario memory entry of the specification. *)
Definition scenarioEntry : MemoryEntry :=
  mkMemoryEntry "0" "123" "1" "1000" "500" "900" "2000" "3".

(** A [pkg.stats] record for the scenario entry. *)
Definition scenarioRecord : binrpc.RawRecord :=
  binrpc.TypeStruct
    [("entry", binrpc.TypeInt 0); ("pid", binrpc.TypeInt 123);
     ("rank", binrpc.TypeInt 1); ("used", binrpc.TypeInt 1000);
     ("free", binrpc.TypeInt 500); ("real_used", binrpc.TypeInt 900);
     ("total_size", binrpc.TypeInt 2000); ("total_frags", binrpc.TypeInt 3)].

(** A struct none of whose items is a recognized integer field. *)
Definition foreignRecord : binrpc.RawRecord :=
  binrpc.TypeStruct
    [("used", binrpc.TypeString "1000"); ("shm_used", binrpc.TypeInt 7)].

(** A [stats.fetch] reply with a value that is not a string. *)
Definition mixedStats : binrpc.RawRecord :=
  binrpc.TypeStruct
    [("core.rcv_requests", binrpc.TypeString "42");
     ("core.fwd_requests", binrpc.TypeInt 7)].

(** A [stats.fetch] reply with a stat no translator knows. *)
Definition foreignStats : gmap string string :=
  <["usrloc.registered_users" := "17"]> scenarioStats.

(** A reply that is a fault (code and reason), not a struct. *)
Definition faultReply : list binrpc.RawRecord :=
  [binrpc.TypeInt 500; binrpc.TypeString "command not found"].

(** A [strconv.ParseFloat] that rejects whatever is not a decimal integer. *)
Definition integersOnly : string -> option strconv.float64 := fun _ => None.

(** A [strings.ToLower] that leaves non-ASCII strings alone. *)
Definition asciiOnly : string -> string := fun s => s.

(** No constant labels. *)
Definition noLabels : prometheus.Labels := ∅.

(** A Kamailio that answers [pkg.stats] with [memory] and every other
    command with [stats]; the cookie names the command. *)
Definition kamailio (memory stats : list binrpc.RawRecord) : net.Network :=
  net.mkNetwork (fun _ _ => inl 1%nat) (fun _ command _ => inl command)
    (fun _ cookie =>
       inl (if String.eqb cookie "pkg.stats" then memory else stats)).

(** Two scripted stats whose names differ in letter case only. *)
Definition caseStats : gmap string string :=
  <["script.Calls" := "3"]> (<["script.calls" := "4"]> ∅).

(** A scripted stat with an upper-case name. *)
Definition shoutedStats : gmap string string :=
  <["script.REQ_TOTAL" := "9"]> ∅.

(** A record that repeats a key. *)
Definition repeatedRecord : binrpc.RawRecord :=
  binrpc.TypeStruct
    [("used", binrpc.TypeInt 1); ("used", binrpc.TypeInt 2);
     ("used", binrpc.TypeString "x")].


Section Collector.

Import prometheus.

(** [strconv.ParseFloat] outside the decimal-integer strings. *)
Variable parseFloatRest : string -> option strconv.float64.
(** [strings.ToLower] on strings that are not pure ASCII. *)
Variable unicodeLower : string -> string.
(** The constant labels [initMetrics] was called with. *)
Variable constLabels : Labels.
(** The network the collector talks to. *)
Variable world : net.Network.

Definition ParseFloat : string -> option strconv.float64 :=
  strconv.ParseFloat parseFloatRest.
Definition ToLower : string -> string := gostrings.ToLower unicodeLower.

(** *** The metric descriptions built by [initMetrics] *)

Definition core_request_total : Desc :=
  NewDesc "kamailio_core_request_total" "Request counters" ["method"] constLabels.
Definition core_rcv_request_total : Desc :=
  NewDesc "kamailio_core_rcv_request_total" "Received requests by method" ["method"] constLabels.
Definition core_reply_total : Desc :=
  NewDesc "kamailio_core_reply_total" "Reply counters" ["type"] constLabels.
Definition core_rcv_reply_total : Desc :=
  NewDesc "kamailio_core_rcv_reply_total" "Received replies by code" ["code"] constLabels.
Definition shmem_bytes : Desc :=
  NewDesc "kamailio_shm_bytes" "Shared memory sizes" ["type"] constLabels.
Definition shmem_fragments : Desc :=
  NewDesc "kamailio_shm_fragments" "Shared memory fragment count" [] constLabels.
Definition pkgmem_bytes : Desc :=
  NewDesc "kamailio_pkg_bytes" "Private memory" ["index"; "pid"; "rank"; "type"] constLabels.
Definition dns_failed : Desc :=
  NewDesc "kamailio_dns_failed_request_total" "Failed dns requests" [] constLabels.
Definition bad_uri : Desc :=
  NewDesc "kamailio_bad_uri_total" "Messages with bad uri" [] constLabels.
Definition bad_msg_hdr : Desc :=
  NewDesc "kamailio_bad_msg_hdr" "Messages with bad message header" [] constLabels.
Definition sl_reply_total : Desc :=
  NewDesc "kamailio_sl_reply_total" "Stateless replies by code" ["code"] constLabels.
Definition sl_type_total : Desc :=
  NewDesc "kamailio_sl_type_total" "Stateless replies by type" ["type"] constLabels.
Definition tcp_total : Desc :=
  NewDesc "kamailio_tcp_total" "TCP connection counters" ["type"] constLabels.
Definition tcp_connections : Desc :=
  NewDesc "kamailio_tcp_connections" "Opened TCP connections" [] constLabels.
Definition tcp_writequeue : Desc :=
  NewDesc "kamailio_tcp_writequeue" "TCP write queue size" [] constLabels.
Definition tmx_code_total : Desc :=
  NewDesc "kamailio_tmx_code_total" "Completed Transaction counters by code" ["code"] constLabels.
Definition tmx_type_total : Desc :=
  NewDesc "kamailio_tmx_type_total" "Completed Transaction counters by type" ["type"] constLabels.
Definition tmx : Desc :=
  NewDesc "kamailio_tmx" "Ongoing Transactions" ["type"] constLabels.
Definition tmx_rpl_total : Desc :=
  NewDesc "kamailio_tmx_rpl_total" "Tmx reply counters" ["type"] constLabels.
Definition dialog : Desc :=
  NewDesc "kamailio_dialog" "Ongoing Dialogs" ["type"] constLabels.

(** *** Talking to Kamailio *)

(** [execRPCCommand]: the network operations performed and the result.
    The deferred [conn.Close()] runs on every return that follows a
    successful dial. *)
Definition execRPCCommand (c : StatsCollector) (command param : string)
  : list net.Event * outcome (list binrpc.RawRecord) :=
  let '(dialed, conn_err) :=
    if String.eqb (kamailioHost c) ""
    then (net.Dialed "unix" (socketPath c),
          net.Dial world "unix" (socketPath c))
    else
      let address := kamailioHost c +:+ ":" +:+ strconv.Itoa (kamailioPort c) in
      (net.Dialed "tcp" address, net.Dial world "tcp" address) in
  match conn_err with
  | inr err => ([dialed], Err err)
  | inl conn =>
      let params := if String.eqb param "" then [] else [param] in
      match net.WritePacket world conn command params with
      | inr err =>
          ([dialed; net.Wrote conn command params; net.Closed conn], Err err)
      | inl cookie =>
          let trace := [dialed; net.Wrote conn command params;
                        net.ReadReply conn cookie; net.Closed conn] in
          match net.ReadPacket world conn cookie with
          | inr err => (trace, Err err)
          | inl records => (trace, Ok records)
          end
      end
  end.

(** The [switch item.Key] of [fetchPKGMemStats]. *)
Definition setMemoryField (m : MemoryEntry) (key value : string) : MemoryEntry :=
  if String.eqb key "entry" then
    mkMemoryEntry value (Pid m) (Rank m) (Used m) (Free m) (RealUsed m) (TotalSize m) (TotalFrags m)
  else if String.eqb key "pid" then
    mkMemoryEntry (Entry m) value (Rank m) (Used m) (Free m) (RealUsed m) (TotalSize m) (TotalFrags m)
  else if String.eqb key "rank" then
    mkMemoryEntry (Entry m) (Pid m) value (Used m) (Free m) (RealUsed m) (TotalSize m) (TotalFrags m)
  else if String.eqb key "used" then
    mkMemoryEntry (Entry m) (Pid m) (Rank m) value (Free m) (RealUsed m) (TotalSize m) (TotalFrags m)
  else if String.eqb key "free" then
    mkMemoryEntry (Entry m) (Pid m) (Rank m) (Used m) value (RealUsed m) (TotalSize m) (TotalFrags m)
  else if String.eqb key "real_used" then
    mkMemoryEntry (Entry m) (Pid m) (Rank m) (Used m) (Free m) value (TotalSize m) (TotalFrags m)
  else if String.eqb key "total_size" then
    mkMemoryEntry (Entry m) (Pid m) (Rank m) (Used m) (Free m) (RealUsed m) value (TotalFrags m)
  else if String.eqb key "total_frags" then
    mkMemoryEntry (Entry m) (Pid m) (Rank m) (Used m) (Free m) (RealUsed m) (TotalSize m) value
  else m.

(** The body of the inner loop of [fetchPKGMemStats]: an item whose value is
    not an integer is left out ([continue]). *)
Definition memoryItem (m : MemoryEntry) (item : binrpc.StructItem) : MemoryEntry :=
  let (intRes, err) := binrpc.Int (binrpc.Value item) in
  match err with
  | Some _ => m
  | None => setMemoryField m (binrpc.Key item) (strconv.Itoa intRes)
  end.

(** The body of the outer loop: a record is a memory entry.  The error of
    [record.StructItems()] is dropped ([items, _ :=]). *)
Definition memoryEntryOf (record : binrpc.RawRecord) : MemoryEntry :=
  let (items, _) := binrpc.StructItems record in
  foldl memoryItem emptyMemoryEntry items.

Definition fetchPKGMemStats (c : StatsCollector) : outcome (list MemoryEntry) :=
  match snd (execRPCCommand c "pkg.stats" "") with
  | Ok records => Ok (foldl (fun (result : list MemoryEntry) record =>
                   result ++ [memoryEntryOf record]) [] records)
  | Err err => Err err
  | Panic p => Panic p
  end.

(** The body of the loop of [fetchStats]: the error of [String()] is
    dropped ([value, _ :=]) and the key is set. *)
Definition statItem (result : gmap string string) (item : binrpc.StructItem)
  : gmap string string :=
  let (value, _) := binrpc.String (binrpc.Value item) in
  <[binrpc.Key item := value]> result.

(** [fetchStats]: connect to Kamailio and perform a "stats.fetch" rpc call;
    the result is a flat key=>value map.  [records[0]] panics on an empty
    slice; the error of [StructItems()] is dropped. *)
Definition fetchStats (c : StatsCollector) : outcome (gmap string string) :=
  match snd (execRPCCommand c "stats.fetch" "all") with
  | Ok records =>
      match records with
      | [] => Panic "index out of range [0] with length 0"
      | record0 :: _ =>
          let (items, _) := binrpc.StructItems record0 in
          Ok (foldl statItem ∅ items)
      end
  | Err err => Err err
  | Panic p => Panic p
  end.

(** *** Producing metrics *)

Definition convertPKGStatToMetric (value : string) (labels : list string)
  : list Metric :=
  match ParseFloat value with
  | Some valueFloat =>
      match NewConstMetric pkgmem_bytes GaugeValue valueFloat labels with
      | inl metric => [metric]
      | inr _ => []
      end
  | None => []
  end.

(** [labelValues] has length and capacity 3, so each [append] below copies
    it into a fresh slice: the five label slices do not share storage. *)
Definition producePKGMemMetrics (memStatMap : list MemoryEntry) : list Metric :=
  flat_map (fun e =>
    let labelValues := [Entry e; Pid e; Rank e] in
    let labelUsed := labelValues ++ ["used"] in
    let labelFree := labelValues ++ ["free"] in
    let labelRealUsed := labelValues ++ ["real_used"] in
    let labelTotal := labelValues ++ ["total"] in
    let labelFrags := labelValues ++ ["total_frags"] in
    convertPKGStatToMetric (Used e) labelUsed
    ++ convertPKGStatToMetric (Free e) labelFree
    ++ convertPKGStatToMetric (RealUsed e) labelRealUsed
    ++ convertPKGStatToMetric (TotalSize e) labelTotal
    ++ convertPKGStatToMetric (TotalFrags e) labelFrags) memStatMap.

(** [convertStatToMetric]: convert a single "stat" value to a prometheus
    metric; invalid "stat" pairs are skipped. *)
Definition convertStatToMetric (completeStatMap : gmap string string)
    (statKey optionalLabelValue : string) (metricDescription : Desc)
    (valueType : ValueType) : list Metric :=
  let labelValues :=
    if negb (String.eqb optionalLabelValue "") then [optionalLabelValue] else [] in
  match completeStatMap !! statKey with
  | Some valueAsString =>
      match ParseFloat valueAsString with
      | Some value =>
          match NewConstMetric metricDescription valueType value labelValues with
          | inl metric => [metric]
          | inr _ => []
          end
      | None => []
      end
  | None => []
  end.

(** The calls [produceMetrics] makes, in order: stat key, optional label
    value, metric description, value type. *)
Definition catalog : list (string * string * Desc * ValueType) := [
  ("core.drop_requests", "drop", core_request_total, CounterValue);
  ("core.err_requests", "err", core_request_total, CounterValue);
  ("core.fwd_requests", "fwd", core_request_total, CounterValue);
  ("core.rcv_requests", "rcv", core_request_total, CounterValue);
  ("core.rcv_requests_ack", "ack", core_rcv_request_total, CounterValue);
  ("core.rcv_requests_bye", "bye", core_rcv_request_total, CounterValue);
  ("core.rcv_requests_cancel", "cancel", core_rcv_request_total, CounterValue);
  ("core.rcv_requests_info", "info", core_rcv_request_total, CounterValue);
  ("core.rcv_requests_invite", "invite", core_rcv_request_total, CounterValue);
  ("core.rcv_requests_message", "message", core_rcv_request_total, CounterValue);
  ("core.rcv_requests_notify", "notify", core_rcv_request_total, CounterValue);
  ("core.rcv_requests_options", "options", core_rcv_request_total, CounterValue);
  ("core.rcv_requests_prack", "prack", core_rcv_request_total, CounterValue);
  ("core.rcv_requests_publish", "publish", core_rcv_request_total, CounterValue);
  ("core.rcv_requests_refer", "refer", core_rcv_request_total, CounterValue);
  ("core.rcv_requests_register", "register", core_rcv_request_total, CounterValue);
  ("core.rcv_requests_subscribe", "subscribe", core_rcv_request_total, CounterValue);
  ("core.rcv_requests_update", "update", core_rcv_request_total, CounterValue);
  ("core.unsupported_methods", "unsupported", core_rcv_request_total, CounterValue);
  ("core.drop_replies", "drop", core_reply_total, CounterValue);
  ("core.err_replies", "err", core_reply_total, CounterValue);
  ("core.fwd_replies", "fwd", core_reply_total, CounterValue);
  ("core.rcv_replies", "rcv", core_reply_total, CounterValue);
  ("core.rcv_replies_18x", "18x", core_rcv_reply_total, CounterValue);
  ("core.rcv_replies_1xx", "1xx", core_rcv_reply_total, CounterValue);
  ("core.rcv_replies_2xx", "2xx", core_rcv_reply_total, CounterValue);
  ("core.rcv_replies_3xx", "3xx", core_rcv_reply_total, CounterValue);
  ("core.rcv_replies_401", "401", core_rcv_reply_total, CounterValue);
  ("core.rcv_replies_404", "404", core_rcv_reply_total, CounterValue);
  ("core.rcv_replies_407", "407", core_rcv_reply_total, CounterValue);
  ("core.rcv_replies_408", "408", core_rcv_reply_total, CounterValue);
  ("core.rcv_replies_480", "480", core_rcv_reply_total, CounterValue);
  ("core.rcv_replies_486", "486", core_rcv_reply_total, CounterValue);
  ("core.rcv_replies_4xx", "4xx", core_rcv_reply_total, CounterValue);
  ("core.rcv_replies_5xx", "5xx", core_rcv_reply_total, CounterValue);
  ("core.rcv_replies_6xx", "6xx", core_rcv_reply_total, CounterValue);
  ("shmem.free_size", "free", shmem_bytes, GaugeValue);
  ("shmem.max_used_size", "max_used", shmem_bytes, GaugeValue);
  ("shmem.real_used_size", "real_used", shmem_bytes, GaugeValue);
  ("shmem.total_size", "total", shmem_bytes, GaugeValue);
  ("shmem.used_size", "used", shmem_bytes, GaugeValue);
  ("shmem.fragments", "", shmem_fragments, GaugeValue);
  ("dns.failed_dns_request", "", dns_failed, CounterValue);
  ("core.bad_URIs_rcvd", "", bad_uri, CounterValue);
  ("core.bad_msg_hdr", "", bad_msg_hdr, CounterValue);
  ("sl.1xx_replies", "1xx", sl_reply_total, CounterValue);
  ("sl.200_replies", "200", sl_reply_total, CounterValue);
  ("sl.202_replies", "202", sl_reply_total, CounterValue);
  ("sl.2xx_replies", "2xx", sl_reply_total, CounterValue);
  ("sl.300_replies", "300", sl_reply_total, CounterValue);
  ("sl.301_replies", "301", sl_reply_total, CounterValue);
  ("sl.302_replies", "302", sl_reply_total, CounterValue);
  ("sl.3xx_replies", "3xx", sl_reply_total, CounterValue);
  ("sl.400_replies", "400", sl_reply_total, CounterValue);
  ("sl.401_replies", "401", sl_reply_total, CounterValue);
  ("sl.403_replies", "403", sl_reply_total, CounterValue);
  ("sl.404_replies", "404", sl_reply_total, CounterValue);
  ("sl.407_replies", "407", sl_reply_total, CounterValue);
  ("sl.408_replies", "408", sl_reply_total, CounterValue);
  ("sl.483_replies", "483", sl_reply_total, CounterValue);
  ("sl.4xx_replies", "4xx", sl_reply_total, CounterValue);
  ("sl.500_replies", "500", sl_reply_total, CounterValue);
  ("sl.5xx_replies", "5xx", sl_reply_total, CounterValue);
  ("sl.6xx_replies", "6xx", sl_reply_total, CounterValue);
  ("sl.failures", "failure", sl_type_total, CounterValue);
  ("sl.received_ACKs", "received_ack", sl_type_total, CounterValue);
  ("sl.sent_err_replies", "sent_err_reply", sl_type_total, CounterValue);
  ("sl.sent_replies", "sent_reply", sl_type_total, CounterValue);
  ("sl.xxx_replies", "xxx_reply", sl_type_total, CounterValue);
  ("tcp.con_reset", "con_reset", tcp_total, CounterValue);
  ("tcp.con_timeout", "con_timeout", tcp_total, CounterValue);
  ("tcp.connect_failed", "connect_failed", tcp_total, CounterValue);
  ("tcp.connect_success", "connect_success", tcp_total, CounterValue);
  ("tcp.established", "established", tcp_total, CounterValue);
  ("tcp.local_reject", "local_reject", tcp_total, CounterValue);
  ("tcp.passive_open", "passive_open", tcp_total, CounterValue);
  ("tcp.send_timeout", "send_timeout", tcp_total, CounterValue);
  ("tcp.sendq_full", "sendq_full", tcp_total, CounterValue);
  ("tcp.current_opened_connections", "", tcp_connections, GaugeValue);
  ("tcp.current_write_queue_size", "", tcp_writequeue, GaugeValue);
  ("tmx.2xx_transactions", "2xx", tmx_code_total, CounterValue);
  ("tmx.3xx_transactions", "3xx", tmx_code_total, CounterValue);
  ("tmx.4xx_transactions", "4xx", tmx_code_total, CounterValue);
  ("tmx.5xx_transactions", "5xx", tmx_code_total, CounterValue);
  ("tmx.6xx_transactions", "6xx", tmx_code_total, CounterValue);
  ("tmx.UAC_transactions", "uac", tmx_type_total, CounterValue);
  ("tmx.UAS_transactions", "uas", tmx_type_total, CounterValue);
  ("tmx.active_transactions", "active", tmx, GaugeValue);
  ("tmx.inuse_transactions", "inuse", tmx, GaugeValue);
  ("tmx.rpl_absorbed", "absorbed", tmx_rpl_total, CounterValue);
  ("tmx.rpl_generated", "generated", tmx_rpl_total, CounterValue);
  ("tmx.rpl_received", "received", tmx_rpl_total, CounterValue);
  ("tmx.rpl_relayed", "relayed", tmx_rpl_total, CounterValue);
  ("tmx.rpl_sent", "sent", tmx_rpl_total, CounterValue);
  ("dialog.active_dialogs", "active_dialogs", dialog, CounterValue);
  ("dialog.early_dialogs", "early_dialogs", dialog, CounterValue);
  ("dialog.expired_dialogs", "expired_dialogs", dialog, CounterValue);
  ("dialog.failed_dialogs", "failed_dialogs", dialog, CounterValue);
  ("dialog.processed_dialogs", "processed_dialogs", dialog, CounterValue)
].

(** [produceMetrics]: produce a series of metrics by converting the
    "well-known" stats. *)
Definition produceMetrics (completeStatMap : gmap string string) : list Metric :=
  flat_map (fun '(statKey, optionalLabelValue, metricDescription, valueType) =>
    convertStatToMetric completeStatMap statKey optionalLabelValue
      metricDescription valueType) catalog.

(** The body of the loop of [convertScriptedMetrics] for the key [k]. *)
Definition convertScriptedMetric (data : gmap string string) (k : string)
  : list Metric :=
  if gostrings.HasPrefix k "script." then
    let metricName := gostrings.TrimPrefix k "script." in
    let metricName := ToLower metricName in
    let valueType :=
      if gostrings.HasSuffix k "_total" || gostrings.HasSuffix k "_seconds"
         || gostrings.HasSuffix k "_bytes"
      then CounterValue else GaugeValue in
    let description :=
      NewDesc ("kamailio_" +:+ metricName) ("Scripted metric " +:+ metricName)
        [] constLabels in
    convertStatToMetric data k "" description valueType
  else [].

(** [convertScriptedMetrics]: iterate all reported "stats" keys and find
    those with a prefix of "script.".  Go leaves the order of [range] over a
    map unspecified; the model visits the keys in the order of
    [map_to_list], and the properties proved do not depend on it. *)
Definition convertScriptedMetrics (data : gmap string string) : list Metric :=
  flat_map (fun kv => convertScriptedMetric data (fst kv)) (map_to_list data).

(** [Collect]: the metrics sent on the channel, and the panic that ended
    the cycle, if any. *)
Definition Collect (c : StatsCollector) : list Metric * option string :=
  let '(sent, panicked) :=
    match fetchPKGMemStats c with
    | Ok memStatMap => (producePKGMemMetrics memStatMap, None)
    | Err _ => ([], None)
    | Panic p => ([], Some p)
    end in
  match panicked with
  | Some p => (sent, Some p)
  | None =>
      match fetchStats c with
      | Ok completeStatMap =>
          (sent ++ produceMetrics completeStatMap
                ++ convertScriptedMetrics completeStatMap, None)
      | Err _ => (sent, None)
      | Panic p => (sent, Some p)
      end
  end.

(** *** Notions the properties are stated with *)

Definition isDial (e : net.Event) : bool :=
  match e with net.Dialed _ _ => true | _ => false end.

(** The wire keys that name a field of [MemoryEntry]. *)
Definition memoryKeys : list string :=
  ["entry"; "pid"; "rank"; "used"; "free"; "real_used"; "total_size";
   "total_frags"].

(** The field a wire key names. *)
Definition memoryField (key : string) (m : MemoryEntry) : string :=
  if String.eqb key "entry" then Entry m
  else if String.eqb key "pid" then Pid m
  else if String.eqb key "rank" then Rank m
  else if String.eqb key "used" then Used m
  else if String.eqb key "free" then Free m
  else if String.eqb key "real_used" then RealUsed m
  else if String.eqb key "total_size" then TotalSize m
  else if String.eqb key "total_frags" then TotalFrags m
  else "".

Definition isInteger (r : binrpc.RawRecord) : bool :=
  match r with binrpc.TypeInt _ => true | _ => false end.

(** An item the normalizer stores: an integer under a recognized key. *)
Definition recognized (item : binrpc.StructItem) : bool :=
  isInteger (binrpc.Value item)
  && existsb (String.eqb (binrpc.Key item)) memoryKeys.

(** The stat keys [produceMetrics] looks up. *)
Definition catalogKeys : list string :=
  map (fun '(statKey, _, _, _) => statKey) catalog.

(** The catalog entries with a given stat key. *)
Definition catalogFor (k : string) : list (string * string * Desc * ValueType) :=
  List.filter (fun '(statKey, _, _, _) => String.eqb statKey k) catalog.

(** A well-formed memory entry: every field is the decimal text of a Go
    [int], as the normalizer writes it. *)
Definition decimalNumeral (s : string) : Prop :=
  exists n : Z, strconv.isInt n /\ s = strconv.Itoa n.

Definition wellFormedEntry (e : MemoryEntry) : Prop :=
  decimalNumeral (Entry e) /\ decimalNumeral (Pid e) /\ decimalNumeral (Rank e)
  /\ decimalNumeral (Used e) /\ decimalNumeral (Free e)
  /\ decimalNumeral (RealUsed e) /\ decimalNumeral (TotalSize e)
  /\ decimalNumeral (TotalFrags e).

(** The sample [convertPKGStatToMetric] sends for a parsed value. *)
Definition pkgSample (e : MemoryEntry) (type : string) (v : strconv.float64)
  : Metric :=
  mkMetric pkgmem_bytes GaugeValue v [Entry e; Pid e; Rank e; type].

(** The naming convention of scripted stats: a name that ends in [_total],
    [_seconds] or [_bytes] counts. *)
Definition countingSuffix (s : string) : bool :=
  gostrings.HasSuffix s "_total" || gostrings.HasSuffix s "_seconds"
  || gostrings.HasSuffix s "_bytes".

(** The stat keys of the scenario map. *)
Definition scenarioKeys : list string :=
  ["core.rcv_requests"; "sl.200_replies"; "script.custom_total"].

(** *** Notions for the further properties *)

Definition isClosed (e : net.Event) : bool :=
  match e with net.Closed _ => true | _ => false end.

(** The network and the address [execRPCCommand] dials. *)
Definition dialTarget (c : StatsCollector) : string * string :=
  if String.eqb (kamailioHost c) "" then ("unix", socketPath c)
  else ("tcp", kamailioHost c +:+ ":" +:+ strconv.Itoa (kamailioPort c)).

(** The parameters [execRPCCommand] writes after the command. *)
Definition sentParams (param : string) : list string :=
  if String.eqb param "" then [] else [param].

(** The label values [convertStatToMetric] passes on for its optional label
    value. *)
Definition labelsOf (optionalLabelValue : string) : list string :=
  if negb (String.eqb optionalLabelValue "") then [optionalLabelValue] else [].

(** What a catalog entry contributes for a map: its sample when the stat is
    there and parses. *)
Definition catalogSample (m : gmap string string)
    (entry : string * string * Desc * ValueType) : list Metric :=
  let '(statKey, optionalLabelValue, metricDescription, valueType) := entry in
  match m !! statKey with
  | Some valueAsString =>
      match ParseFloat valueAsString with
      | Some value =>
          [mkMetric metricDescription valueType value
             (labelsOf optionalLabelValue)]
      | None => []
      end
  | None => []
  end.

(** The label count of a catalog entry fits its description. *)
Definition labelCountOk (entry : string * string * Desc * ValueType) : bool :=
  let '(_, optionalLabelValue, metricDescription, _) := entry in
  (length (labelsOf optionalLabelValue)
   =? length (variableLabels metricDescription))%nat.

(** The fourth label of the memory samples. *)
Definition pkgTypes : list string :=
  ["used"; "free"; "real_used"; "total"; "total_frags"].

(** What one field of a memory entry contributes: its sample when the
    field parses. *)
Definition pkgField (e : MemoryEntry) (field type : string) : list Metric :=
  match ParseFloat field with
  | Some v => [pkgSample e type v]
  | None => []
  end.


(** The stat key of a catalog entry. *)
Definition entryKey (entry : string * string * Desc * ValueType) : string :=
  let '(statKey, _, _, _) := entry in statKey.

(** The catalog entries for the stats other than [k]. *)
Definition otherEntries (k : string)
    (entries : list (string * string * Desc * ValueType))
  : list (string * string * Desc * ValueType) :=
  List.filter (fun entry => negb (String.eqb (entryKey entry) k)) entries.

(** The samples of one memory entry, field by field. *)
Definition pkgFields (e : MemoryEntry) : list Metric :=
  pkgField e (Used e) "used" ++ pkgField e (Free e) "free"
  ++ pkgField e (RealUsed e) "real_used" ++ pkgField e (TotalSize e) "total"
  ++ pkgField e (TotalFrags e) "total_frags".

(** A metric name of the exporter. *)
Definition exporterName (s : Metric) : bool :=
  gostrings.HasPrefix (fqName (desc s)) "kamailio_".


(** The record's last integer item under [key] carries [n]: the item that
    decides the field. *)
Definition setsField (record : binrpc.RawRecord) (key : string) (n : Z) : Prop :=
  exists before after : list binrpc.StructItem,
    fst (binrpc.StructItems record)
    = before ++ binrpc.mkStructItem key (binrpc.TypeInt n) :: after
    /\ forall later, later ∈ after -> binrpc.Key later = key ->
                     isInteger (binrpc.Value later) = false.

(** The binary64 nearest to a wire integer. *)
Definition floatOfInt (n : Z) : strconv.float64 :=
  strconv.roundInteger (n <? 0) (Z.abs n).

(** The string [fetchStats] stores for a value. *)
Definition storedString (r : binrpc.RawRecord) : string :=
  match r with binrpc.TypeString s => s | _ => "" end.


(** ** Properties *)

(** *** Strings *)

Lemma length_app_string (a b : string) :
  String.length (a +:+ b) = (String.length a + String.length b)%nat.
Proof. induction a as [|c a IH]; simpl; [reflexivity | now rewrite IH]. Qed.

Lemma drop_app_plus (p X : string) (j : nat) :
  gostrings.drop (String.length p + j) (p +:+ X) = gostrings.drop j X.
Proof. induction p as [|c p IH]; simpl; [reflexivity | exact IH]. Qed.

Lemma drop_app_length (p X : string) :
  gostrings.drop (String.length p) (p +:+ X) = X.
Proof.
  rewrite <- (Nat.add_0_r (String.length p)), drop_app_plus. reflexivity.
Qed.

Lemma substring_app_length (p X : string) :
  String.substring 0 (String.length p) (p +:+ X) = p.
Proof. induction p as [|c p IH]; simpl; [now destruct X | now rewrite IH]. Qed.

Lemma substring_drop (n : nat) (s : string) :
  (n <= String.length s)%nat ->
  s = String.substring 0 n s +:+ gostrings.drop n s.
Proof.
  revert s; induction n as [|n IH]; intros s Hn.
  - now destruct s.
  - destruct s as [|c s]; simpl in Hn; [lia |].
    change (String c s
            = String c (String.substring 0 n s +:+ gostrings.drop n s)).
    f_equal. apply IH. lia.
Qed.

Lemma HasPrefix_app (p X : string) : gostrings.HasPrefix (p +:+ X) p = true.
Proof.
  unfold gostrings.HasPrefix.
  rewrite substring_app_length, String.eqb_refl, length_app_string.
  rewrite andb_true_r. apply Nat.leb_le. lia.
Qed.

Lemma HasPrefix_inv (s p : string) :
  gostrings.HasPrefix s p = true ->
  s = p +:+ gostrings.drop (String.length p) s.
Proof.
  unfold gostrings.HasPrefix. intros H.
  apply andb_prop in H as [Hlen Heq].
  apply Nat.leb_le in Hlen. apply String.eqb_eq in Heq.
  rewrite <- Heq at 1. now apply substring_drop.
Qed.

Lemma TrimPrefix_app (p X : string) : gostrings.TrimPrefix (p +:+ X) p = X.
Proof.
  unfold gostrings.TrimPrefix. now rewrite HasPrefix_app, drop_app_length.
Qed.

(** A suffix no longer than [X] is looked for in [X] alone. *)
Lemma HasSuffix_app_ge (p X suffix : string) :
  (String.length suffix <= String.length X)%nat ->
  gostrings.HasSuffix (p +:+ X) suffix = gostrings.HasSuffix X suffix.
Proof.
  intros Hlen. unfold gostrings.HasSuffix.
  rewrite length_app_string.
  replace (String.length p + String.length X - String.length suffix)%nat
    with (String.length p + (String.length X - String.length suffix))%nat by lia.
  rewrite drop_app_plus.
  f_equal.
  transitivity true; [| symmetry]; apply Nat.leb_le; lia.
Qed.

(** The three suffixes [convertScriptedMetrics] tests never reach into the
    prefix ["script."]: testing the key is testing the stripped name. *)
Lemma HasSuffix_script_total (X : string) :
  gostrings.HasSuffix ("script." +:+ X) "_total" = gostrings.HasSuffix X "_total".
Proof.
  destruct X as [|c1 [|c2 [|c3 [|c4 [|c5 [|c6 X]]]]]]; try reflexivity.
  apply HasSuffix_app_ge. simpl. lia.
Qed.

Lemma HasSuffix_script_seconds (X : string) :
  gostrings.HasSuffix ("script." +:+ X) "_seconds" = gostrings.HasSuffix X "_seconds".
Proof.
  destruct X as [|c1 [|c2 [|c3 [|c4 [|c5 [|c6 [|c7 [|c8 X]]]]]]]]; try reflexivity.
  apply HasSuffix_app_ge. simpl. lia.
Qed.

Lemma HasSuffix_script_bytes (X : string) :
  gostrings.HasSuffix ("script." +:+ X) "_bytes" = gostrings.HasSuffix X "_bytes".
Proof.
  destruct X as [|c1 [|c2 [|c3 [|c4 [|c5 [|c6 X]]]]]]; try reflexivity.
  apply HasSuffix_app_ge. simpl. lia.
Qed.

(** *** Numbers and their decimal text *)

Lemma int_below_overflowBound (n : Z) :
  strconv.isInt n -> Z.abs n < strconv.overflowBound.
Proof.
  unfold strconv.isInt. intros Hn.
  assert (Hb : 2 ^ 63 < strconv.overflowBound) by (vm_compute; reflexivity).
  assert (Hp : 2 ^ 63 = 9223372036854775808) by reflexivity.
  lia.
Qed.

Lemma readSign_digits (d : uint) :
  d <> Nil ->
  strconv.readSign (NilZero.string_of_uint d) = (false, NilZero.string_of_uint d).
Proof. destruct d; simpl; try reflexivity; congruence. Qed.

Lemma ParseFloat_empty : ParseFloat "" = None.
Proof. reflexivity. Qed.

(** The digits [Itoa] writes for a positive number read back as it. *)
Lemma digits_of_positive (p : positive) :
  NilZero.uint_of_string (NilZero.string_of_uint (Pos.to_uint p))
  = Some (Pos.to_uint p)
  /\ Z.of_uint (Pos.to_uint p) = Z.pos p.
Proof.
  split.
  - apply NilZero.usu, DecimalPos.Unsigned.to_uint_nonnil.
  - unfold Z.of_uint. now rewrite DecimalPos.Unsigned.of_to.
Qed.

(** [ParseFloat] accepts everything [Itoa] writes for a Go [int], and
    yields the nearest binary64. *)
Lemma ParseFloat_Itoa (n : Z) :
  strconv.isInt n ->
  ParseFloat (strconv.Itoa n)
  = Some (strconv.roundInteger (n <? 0) (Z.abs n)).
Proof.
  intros Hn. apply int_below_overflowBound in Hn.
  unfold ParseFloat, strconv.ParseFloat, strconv.Itoa.
  destruct n as [|p|p]; [reflexivity | |];
    destruct (digits_of_positive p) as [Hread Hval];
    apply Z.ltb_lt in Hn; unfold Z.abs in *;
    cbn [Z.to_int NilZero.string_of_int].
  - rewrite readSign_digits by apply DecimalPos.Unsigned.to_uint_nonnil.
    rewrite Hread. cbv zeta. rewrite Hval, Hn. reflexivity.
  - cbn [strconv.readSign].
    rewrite Hread. cbv zeta. rewrite Hval, Hn. reflexivity.
Qed.

(** *** The RPC invoker *)

Lemma execRPCCommand_no_panic (c : StatsCollector) (command param reason : string) :
  snd (execRPCCommand c command param) <> Panic reason.
Proof.
  unfold execRPCCommand.
  destruct (String.eqb (kamailioHost c) "");
    (destruct (net.Dial world _ _) as [conn|]; [| discriminate]);
    (destruct (net.WritePacket world conn _ _) as [cookie|]; [| discriminate]);
    destruct (net.ReadPacket world conn cookie); discriminate.
Qed.

(** A reply packet that fails to decode is an error of the invoker. *)
Lemma execRPCCommand_read_error (c : StatsCollector) (command param : string)
    (conn : net.Conn) (cookie : net.Cookie) (e : error) :
  (forall network address, net.Dial world network address = inl conn) ->
  (forall params, net.WritePacket world conn command params = inl cookie) ->
  net.ReadPacket world conn cookie = inr e ->
  snd (execRPCCommand c command param) = Err e.
Proof.
  intros Hdial Hwrite Hread. unfold execRPCCommand.
  destruct (String.eqb (kamailioHost c) "");
    rewrite Hdial, Hwrite, Hread; reflexivity.
Qed.

(** C1 (as amended).  [execRPCCommand] dials exactly once.  When no host is
    configured it dials the domain socket at the socket path, whatever that
    path is; when a host is configured it dials TCP [host:port], also when
    a socket path is configured too. *)
Theorem execRPCCommand_transport (c : StatsCollector) (command param : string) :
  List.filter isDial (fst (execRPCCommand c command param))
  = [ if String.eqb (kamailioHost c) ""
      then net.Dialed "unix" (socketPath c)
      else net.Dialed "tcp"
             (kamailioHost c +:+ ":" +:+ strconv.Itoa (kamailioPort c)) ].
Proof.
  unfold execRPCCommand.
  destruct (String.eqb (kamailioHost c) "");
    (destruct (net.Dial world _ _) as [conn|]; [| reflexivity]);
    (destruct (net.WritePacket world conn _ _) as [cookie|]; [| reflexivity]);
    destruct (net.ReadPacket world conn cookie); reflexivity.
Qed.

(** *** The memory record normalizer *)

Lemma foldl_snoc_map {A B} (f : A -> B) (l : list A) (acc : list B) :
  foldl (fun (result : list B) x => result ++ [f x]) acc l = acc ++ map f l.
Proof.
  revert acc; induction l as [|x l IH]; intros acc; simpl.
  - now rewrite app_nil_r.
  - rewrite IH, <- app_assoc. reflexivity.
Qed.

Lemma fetchPKGMemStats_Ok (c : StatsCollector) (records : list binrpc.RawRecord) :
  snd (execRPCCommand c "pkg.stats" "") = Ok records ->
  fetchPKGMemStats c = Ok (map memoryEntryOf records).
Proof.
  intros H. unfold fetchPKGMemStats. rewrite H. f_equal.
  exact (foldl_snoc_map memoryEntryOf records []).
Qed.

Lemma fetchPKGMemStats_Err (c : StatsCollector) (e : error) :
  snd (execRPCCommand c "pkg.stats" "") = Err e <-> fetchPKGMemStats c = Err e.
Proof.
  unfold fetchPKGMemStats.
  destruct (snd (execRPCCommand c "pkg.stats" "")); split; congruence.
Qed.

(** An item that is not a recognized integer field leaves the entry as it
    is. *)
Lemma memoryItem_skip (m : MemoryEntry) (item : binrpc.StructItem) :
  recognized item = false -> memoryItem m item = m.
Proof.
  destruct item as [key value]. unfold recognized, memoryItem. simpl.
  destruct value; simpl; try reflexivity.
  unfold setMemoryField.
  repeat (destruct (String.eqb key _); [discriminate |]).
  reflexivity.
Qed.

(** Writing a field changes that field and no other. *)
Lemma memoryField_set (m : MemoryEntry) (key key' value : string) :
  key ∈ memoryKeys ->
  memoryField key (setMemoryField m key' value)
  = if String.eqb key' key then value else memoryField key m.
Proof.
  intros Hkey. unfold memoryKeys in Hkey.
  repeat (apply elem_of_cons in Hkey as [-> | Hkey]);
    [.. | now apply elem_of_nil in Hkey];
    unfold setMemoryField;
    repeat match goal with
           | |- context [String.eqb key' ?s] =>
               destruct (String.eqb_spec key' s) as [-> | _]; [reflexivity |]
           end;
    reflexivity.
Qed.

Lemma memoryField_item (m : MemoryEntry) (key : string) (item : binrpc.StructItem) :
  key ∈ memoryKeys ->
  memoryField key (memoryItem m item)
  = match binrpc.Value item with
    | binrpc.TypeInt n =>
        if String.eqb (binrpc.Key item) key then strconv.Itoa n
        else memoryField key m
    | _ => memoryField key m
    end.
Proof.
  intros Hkey. destruct item as [k value]. unfold memoryItem. simpl.
  destruct value; simpl; try reflexivity.
  now apply memoryField_set.
Qed.

(** A field keeps its value through items that do not set it. *)
Lemma memoryField_foldl_unset (key : string) (items : list binrpc.StructItem)
    (m : MemoryEntry) :
  key ∈ memoryKeys ->
  (forall item, item ∈ items -> binrpc.Key item = key ->
                isInteger (binrpc.Value item) = false) ->
  memoryField key (foldl memoryItem m items) = memoryField key m.
Proof.
  intros Hkey. revert m.
  induction items as [|item items IH]; intros m Hno; [reflexivity |].
  simpl. rewrite IH.
  - rewrite memoryField_item by assumption.
    destruct (binrpc.Value item) eqn:Hv; try reflexivity.
    destruct (String.eqb_spec (binrpc.Key item) key) as [Hk|]; [| reflexivity].
    specialize (Hno item (list_elem_of_here _ _) Hk).
    rewrite Hv in Hno. discriminate.
  - intros it Hit. apply Hno. now apply list_elem_of_further.
Qed.

(** The last integer item under a key decides the field. *)
Lemma memoryField_foldl_last (key : string) (n : Z)
    (before after : list binrpc.StructItem) (m : MemoryEntry) :
  key ∈ memoryKeys ->
  (forall item, item ∈ after -> binrpc.Key item = key ->
                isInteger (binrpc.Value item) = false) ->
  memoryField key
    (foldl memoryItem m
       (before ++ binrpc.mkStructItem key (binrpc.TypeInt n) :: after))
  = strconv.Itoa n.
Proof.
  intros Hkey Hafter. rewrite foldl_app. simpl.
  rewrite memoryField_foldl_unset by assumption.
  rewrite memoryField_item by assumption. simpl.
  now rewrite String.eqb_refl.
Qed.

Lemma memoryField_empty (key : string) : memoryField key emptyMemoryEntry = "".
Proof.
  unfold memoryField.
  repeat (destruct (String.eqb key _); [reflexivity |]). reflexivity.
Qed.

(** Skipped items do not disturb their siblings. *)
Lemma foldl_memoryItem_skip (before after : list binrpc.StructItem)
    (item : binrpc.StructItem) (m : MemoryEntry) :
  recognized item = false ->
  foldl memoryItem m (before ++ item :: after)
  = foldl memoryItem m (before ++ after).
Proof.
  intros Hskip. rewrite !foldl_app. simpl. now rewrite memoryItem_skip.
Qed.

Lemma foldl_memoryItem_all_skipped (items : list binrpc.StructItem) (m : MemoryEntry) :
  (forall item, item ∈ items -> recognized item = false) ->
  foldl memoryItem m items = m.
Proof.
  revert m; induction items as [|item items IH]; intros m Hall; [reflexivity |].
  simpl. rewrite memoryItem_skip by (apply Hall; apply list_elem_of_here).
  apply IH. intros it Hit. apply Hall. now apply list_elem_of_further.
Qed.

Lemma memoryEntryOf_items (record : binrpc.RawRecord) :
  memoryEntryOf record
  = foldl memoryItem emptyMemoryEntry (fst (binrpc.StructItems record)).
Proof. unfold memoryEntryOf. now destruct (binrpc.StructItems record). Qed.

(** When [StructItems] fails there are no items. *)
Lemma StructItems_error (record : binrpc.RawRecord) :
  snd (binrpc.StructItems record) <> None ->
  fst (binrpc.StructItems record) = [].
Proof. destruct record; simpl; congruence. Qed.

(** C9.  [fetchPKGMemStats] returns an error exactly when the RPC invoker
    does and never panics: whatever records the invoker returns, the
    normalizer succeeds with one entry per record.  An item whose value is
    not an integer or whose key is not one of the eight field keys is
    skipped, the entry being built from the remaining items as if the item
    were not there; a field for which the record has no integer item is the
    empty string. *)
Theorem fetchPKGMemStats_fails_only_with_the_invoker (c : StatsCollector) :
  (forall e, fetchPKGMemStats c = Err e
             <-> snd (execRPCCommand c "pkg.stats" "") = Err e)
  /\ (forall reason, fetchPKGMemStats c <> Panic reason)
  /\ (forall records,
        snd (execRPCCommand c "pkg.stats" "") = Ok records ->
        fetchPKGMemStats c = Ok (map memoryEntryOf records))
  /\ (forall record before item after,
        fst (binrpc.StructItems record) = before ++ item :: after ->
        recognized item = false ->
        memoryEntryOf record
        = foldl memoryItem emptyMemoryEntry (before ++ after))
  /\ (forall record key,
        key ∈ memoryKeys ->
        (forall item, item ∈ fst (binrpc.StructItems record) ->
                      binrpc.Key item = key ->
                      isInteger (binrpc.Value item) = false) ->
        memoryField key (memoryEntryOf record) = "").
Proof.
  repeat split.
  - apply fetchPKGMemStats_Err.
  - apply fetchPKGMemStats_Err.
  - intros reason. unfold fetchPKGMemStats.
    destruct (snd (execRPCCommand c "pkg.stats" "")) eqn:H; try discriminate.
    now apply execRPCCommand_no_panic in H.
  - apply fetchPKGMemStats_Ok.
  - intros record before item after Hitems Hskip.
    rewrite memoryEntryOf_items, Hitems. now apply foldl_memoryItem_skip.
  - intros record key Hkey Hno.
    rewrite memoryEntryOf_items, memoryField_foldl_unset by assumption.
    apply memoryField_empty.
Qed.

(** *** Producing the memory samples *)

Lemma convertPKGStatToMetric_empty (labels : list string) :
  convertPKGStatToMetric "" labels = [].
Proof. reflexivity. Qed.

Lemma convertPKGStatToMetric_length (value : string) (labels : list string) :
  (length (convertPKGStatToMetric value labels) <= 1)%nat.
Proof.
  unfold convertPKGStatToMetric.
  destruct (ParseFloat value); [| simpl; lia].
  destruct (NewConstMetric _ _ _ _); simpl; lia.
Qed.

Lemma producePKGMemMetrics_cons (e : MemoryEntry) (entries : list MemoryEntry) :
  producePKGMemMetrics (e :: entries)
  = producePKGMemMetrics [e] ++ producePKGMemMetrics entries.
Proof.
  unfold producePKGMemMetrics. cbn [flat_map]. now rewrite app_nil_r.
Qed.

Lemma producePKGMemMetrics_length (entries : list MemoryEntry) :
  (length (producePKGMemMetrics entries) <= 5 * length entries)%nat.
Proof.
  induction entries as [|e entries IH]; [simpl; lia |].
  rewrite producePKGMemMetrics_cons, length_app.
  unfold producePKGMemMetrics at 1. cbn [flat_map].
  rewrite app_nil_r, !length_app.
  pose proof (convertPKGStatToMetric_length (Used e) ([Entry e; Pid e; Rank e] ++ ["used"])).
  pose proof (convertPKGStatToMetric_length (Free e) ([Entry e; Pid e; Rank e] ++ ["free"])).
  pose proof (convertPKGStatToMetric_length (RealUsed e) ([Entry e; Pid e; Rank e] ++ ["real_used"])).
  pose proof (convertPKGStatToMetric_length (TotalSize e) ([Entry e; Pid e; Rank e] ++ ["total"])).
  pose proof (convertPKGStatToMetric_length (TotalFrags e) ([Entry e; Pid e; Rank e] ++ ["total_frags"])).
  cbn [length] in *. lia.
Qed.

Lemma producePKGMemMetrics_all_empty (entries : list MemoryEntry) :
  (forall e, e ∈ entries -> e = emptyMemoryEntry) ->
  producePKGMemMetrics entries = [].
Proof.
  induction entries as [|e entries IH]; intros Hall; [reflexivity |].
  rewrite producePKGMemMetrics_cons.
  rewrite IH by (intros e' He'; apply Hall; now apply list_elem_of_further).
  rewrite (Hall e) by apply list_elem_of_here. reflexivity.
Qed.

(** C10.  [fetchPKGMemStats] appends exactly one entry per record the
    invoker returns, also for a record none of whose items is a recognized
    integer field: that record's entry is the all-empty one, which produces
    no memory sample.  So the entries are as many as the records, while
    the samples are at most five per entry, and none at all when no record
    has a recognized item. *)
Theorem fetchPKGMemStats_one_entry_per_record (c : StatsCollector)
    (records : list binrpc.RawRecord) :
  snd (execRPCCommand c "pkg.stats" "") = Ok records ->
  exists entries : list MemoryEntry,
    fetchPKGMemStats c = Ok entries
    /\ length entries = length records
    /\ (forall (i : nat) record,
          records !! i = Some record ->
          (forall item, item ∈ fst (binrpc.StructItems record) ->
                        recognized item = false) ->
          entries !! i = Some emptyMemoryEntry)
    /\ producePKGMemMetrics [emptyMemoryEntry] = []
    /\ (length (producePKGMemMetrics entries) <= 5 * length entries)%nat
    /\ ((forall record, record ∈ records ->
          forall item, item ∈ fst (binrpc.StructItems record) ->
                       recognized item = false) ->
        producePKGMemMetrics entries = []).
Proof.
  intros Hrpc. exists (map memoryEntryOf records).
  split; [now apply fetchPKGMemStats_Ok |].
  split; [apply length_map |].
  split.
  { intros i record Hi Hskip.
    rewrite list_lookup_fmap_Some. exists record. split; [| assumption].
    rewrite memoryEntryOf_items. symmetry.
    now apply foldl_memoryItem_all_skipped. }
  split; [reflexivity |].
  split; [apply producePKGMemMetrics_length |].
  intros Hall. apply producePKGMemMetrics_all_empty.
  intros e He. apply list_elem_of_fmap in He as [record [-> Hrec]].
  rewrite memoryEntryOf_items.
  apply foldl_memoryItem_all_skipped. now apply Hall.
Qed.

(** C7.  For a well-formed memory entry, wherever it stands in the list,
    the memory translator emits exactly five samples: all gauges on the
    [kamailio_pkg_bytes] description, all labelled with the entry's
    [(entry, pid, rank)], the fourth label being [used], [free],
    [real_used], [total], [total_frags] in turn, and the values the parsed
    fields. *)
Theorem producePKGMemMetrics_well_formed (before after : list MemoryEntry)
    (e : MemoryEntry) :
  wellFormedEntry e ->
  exists used free realUsed total frags : strconv.float64,
    ParseFloat (Used e) = Some used
    /\ ParseFloat (Free e) = Some free
    /\ ParseFloat (RealUsed e) = Some realUsed
    /\ ParseFloat (TotalSize e) = Some total
    /\ ParseFloat (TotalFrags e) = Some frags
    /\ producePKGMemMetrics (before ++ e :: after)
       = producePKGMemMetrics before
         ++ [pkgSample e "used" used; pkgSample e "free" free;
             pkgSample e "real_used" realUsed; pkgSample e "total" total;
             pkgSample e "total_frags" frags]
         ++ producePKGMemMetrics after.
Proof.
  intros (_ & _ & _ & [nu [Hu Eu]] & [nf [Hf Ef]] & [nr [Hr Er]]
          & [nt [Ht Et]] & [ng [Hg Eg]]).
  apply ParseFloat_Itoa in Hu, Hf, Hr, Ht, Hg.
  rewrite <- Eu in Hu. rewrite <- Ef in Hf. rewrite <- Er in Hr.
  rewrite <- Et in Ht. rewrite <- Eg in Hg.
  eexists _, _, _, _, _.
  repeat (split; [eassumption |]).
  unfold producePKGMemMetrics at 1.
  rewrite flat_map_app. cbn [flat_map].
  unfold convertPKGStatToMetric. rewrite Hu, Hf, Hr, Ht, Hg.
  reflexivity.
Qed.

(** *** The flat stat map builder *)

Lemma statItem_insert (result : gmap string string) (item : binrpc.StructItem) :
  statItem result item
  = <[binrpc.Key item := match binrpc.Value item with
                         | binrpc.TypeString s => s
                         | _ => ""
                         end]> result.
Proof. unfold statItem. now destruct (binrpc.Value item). Qed.

Lemma foldl_statItem_other (k : string) (items : list binrpc.StructItem)
    (acc : gmap string string) :
  (forall item, item ∈ items -> binrpc.Key item <> k) ->
  foldl statItem acc items !! k = acc !! k.
Proof.
  revert acc; induction items as [|item items IH]; intros acc Hk; [reflexivity |].
  simpl. rewrite IH by (intros it Hit; apply Hk; now apply list_elem_of_further).
  rewrite statItem_insert. apply lookup_insert_ne.
  apply Hk, list_elem_of_here.
Qed.

Lemma foldl_statItem_is_Some (k : string) (items : list binrpc.StructItem)
    (acc : gmap string string) :
  is_Some (foldl statItem acc items !! k)
  <-> is_Some (acc !! k) \/ exists item, item ∈ items /\ binrpc.Key item = k.
Proof.
  revert acc; induction items as [|item items IH]; intros acc; simpl.
  - split; [auto | intros [H | (it & Hit & _)]; [assumption |]].
    now apply elem_of_nil in Hit.
  - rewrite IH, statItem_insert. split.
    + intros [H | (it & Hit & Hk)].
      * destruct (decide (binrpc.Key item = k)) as [Heq | Hne].
        -- right. exists item. split; [apply list_elem_of_here | assumption].
        -- left. now rewrite lookup_insert_ne in H.
      * right. exists it. split; [now apply list_elem_of_further | assumption].
    + intros [H | (it & Hit & Hk)].
      * left. destruct (decide (binrpc.Key item = k)) as [Heq | Hne].
        -- rewrite Heq, lookup_insert_eq. eauto.
        -- now rewrite lookup_insert_ne.
      * apply elem_of_cons in Hit as [-> | Hit].
        -- left. rewrite Hk, lookup_insert_eq. eauto.
        -- right. eauto.
Qed.

Lemma fetchStats_Ok (c : StatsCollector) (record0 : binrpc.RawRecord)
    (rest : list binrpc.RawRecord) :
  snd (execRPCCommand c "stats.fetch" "all") = Ok (record0 :: rest) ->
  fetchStats c = Ok (foldl statItem ∅ (fst (binrpc.StructItems record0))).
Proof.
  intros H. unfold fetchStats. rewrite H.
  now destruct (binrpc.StructItems record0).
Qed.

Lemma fetchStats_Err (c : StatsCollector) (e : error) :
  snd (execRPCCommand c "stats.fetch" "all") = Err e -> fetchStats c = Err e.
Proof. intros H. unfold fetchStats. now rewrite H. Qed.

(** [fetchStats] returns for every reply but the empty one. *)
Lemma fetchStats_outcome (c : StatsCollector) :
  match snd (execRPCCommand c "stats.fetch" "all") with
  | Ok [] => fetchStats c = Panic "index out of range [0] with length 0"
  | Ok (record0 :: _) =>
      fetchStats c = Ok (foldl statItem ∅ (fst (binrpc.StructItems record0)))
  | Err e => fetchStats c = Err e
  | Panic _ => False
  end.
Proof.
  destruct (snd (execRPCCommand c "stats.fetch" "all"))
    as [[|record0 rest] | e | reason] eqn:H.
  - unfold fetchStats. now rewrite H.
  - exact (fetchStats_Ok _ _ _ H).
  - now apply fetchStats_Err.
  - now apply execRPCCommand_no_panic in H.
Qed.

(** The one reply on which [fetchStats] does not return. *)
Lemma fetchStats_empty_reply (c : StatsCollector) :
  snd (execRPCCommand c "stats.fetch" "all") = Ok [] ->
  fetchStats c = Panic "index out of range [0] with length 0".
Proof. intros H. unfold fetchStats. now rewrite H. Qed.

(** C6 (as amended).  [fetchStats] sets the key of every item of the first
    record: a key is in the map exactly when some item has it, and it maps
    to the value of the last item with that key, which is the item's string
    when the value is a string and the empty string when it is not. *)
Theorem fetchStats_inserts_every_item (c : StatsCollector)
    (record0 : binrpc.RawRecord) (rest : list binrpc.RawRecord) :
  snd (execRPCCommand c "stats.fetch" "all") = Ok (record0 :: rest) ->
  exists result : gmap string string,
    fetchStats c = Ok result
    /\ (forall k, is_Some (result !! k)
                  <-> exists item, item ∈ fst (binrpc.StructItems record0)
                                   /\ binrpc.Key item = k)
    /\ (forall before item after,
          fst (binrpc.StructItems record0) = before ++ item :: after ->
          (forall later, later ∈ after -> binrpc.Key later <> binrpc.Key item) ->
          result !! binrpc.Key item
          = Some (match binrpc.Value item with
                  | binrpc.TypeString s => s
                  | _ => ""
                  end)).
Proof.
  intros Hrpc. eexists. split; [exact (fetchStats_Ok _ _ _ Hrpc) |]. split.
  - intros k. rewrite foldl_statItem_is_Some. split.
    + intros [H | H]; [| assumption].
      rewrite lookup_empty in H. now destruct H.
    + auto.
  - intros before item after Hitems Hlast.
    rewrite Hitems, foldl_app. simpl.
    rewrite foldl_statItem_other by assumption.
    rewrite statItem_insert. apply lookup_insert_eq.
Qed.

(** C5 (as amended).  An error of the RPC invoker (connect, write, read or
    packet decode) is returned by the enclosing fetch.  A failure to turn a
    returned record into its struct items is not: the record counts as
    having no items, so [fetchStats] succeeds with the empty map and
    [fetchPKGMemStats] succeeds with the all-empty entry for that record. *)
Theorem fetch_propagates_invoker_errors_only (c : StatsCollector) :
  (forall e, snd (execRPCCommand c "stats.fetch" "all") = Err e ->
             fetchStats c = Err e)
  /\ (forall e, snd (execRPCCommand c "pkg.stats" "") = Err e ->
                fetchPKGMemStats c = Err e)
  /\ (forall record0 rest,
        snd (execRPCCommand c "stats.fetch" "all") = Ok (record0 :: rest) ->
        snd (binrpc.StructItems record0) <> None ->
        fetchStats c = Ok ∅)
  /\ (forall records,
        snd (execRPCCommand c "pkg.stats" "") = Ok records ->
        fetchPKGMemStats c = Ok (map memoryEntryOf records))
  /\ (forall record,
        snd (binrpc.StructItems record) <> None ->
        memoryEntryOf record = emptyMemoryEntry).
Proof.
  repeat split.
  - apply fetchStats_Err.
  - apply fetchPKGMemStats_Err.
  - intros record0 rest Hrpc Herr.
    rewrite (fetchStats_Ok _ _ _ Hrpc), StructItems_error by assumption.
    reflexivity.
  - apply fetchPKGMemStats_Ok.
  - intros record Herr.
    rewrite memoryEntryOf_items, StructItems_error by assumption.
    reflexivity.
Qed.

(** *** The translators *)

Lemma flat_map_ext_elem {A B} (f g : A -> list B) (l : list A) :
  (forall x, x ∈ l -> f x = g x) -> flat_map f l = flat_map g l.
Proof.
  induction l as [|x l IH]; intros Hfg; [reflexivity |].
  simpl. rewrite (Hfg x) by apply list_elem_of_here.
  rewrite IH; [reflexivity |].
  intros y Hy. apply Hfg. now apply list_elem_of_further.
Qed.

Lemma flat_map_nil {A B} (f : A -> list B) (l : list A) :
  (forall x, x ∈ l -> f x = []) -> flat_map f l = [].
Proof.
  induction l as [|x l IH]; intros Hf; [reflexivity |].
  simpl. rewrite (Hf x) by apply list_elem_of_here.
  apply IH. intros y Hy. apply Hf. now apply list_elem_of_further.
Qed.

(** Every key of a map is visited once by a loop over the map. *)
Lemma map_to_list_split (m : gmap string string) (k v : string) :
  m !! k = Some v ->
  exists before after : list (string * string),
    map_to_list m = before ++ (k, v) :: after
    /\ (k ∉ map fst before) /\ (k ∉ map fst after).
Proof.
  intros Hk. apply elem_of_map_to_list in Hk.
  apply list_elem_of_split in Hk as (before & after & Hsplit).
  exists before, after. split; [assumption |].
  pose proof (NoDup_fst_map_to_list m) as Hnd.
  change (NoDup (map fst (map_to_list m))) in Hnd.
  rewrite Hsplit, map_app in Hnd. simpl in Hnd.
  apply NoDup_app in Hnd as (_ & Hbefore & Hafter).
  apply NoDup_cons in Hafter as [Hafter _].
  split; [| assumption].
  intros Hin. apply (Hbefore k Hin). apply list_elem_of_here.
Qed.

Lemma convertStatToMetric_agree (m m' : gmap string string)
    (statKey label : string) (d : Desc) (valueType : ValueType) :
  m !! statKey = m' !! statKey ->
  convertStatToMetric m statKey label d valueType
  = convertStatToMetric m' statKey label d valueType.
Proof. intros H. unfold convertStatToMetric. now rewrite H. Qed.

Lemma convertStatToMetric_absent (m : gmap string string)
    (statKey label : string) (d : Desc) (valueType : ValueType) :
  m !! statKey = None -> convertStatToMetric m statKey label d valueType = [].
Proof. intros H. unfold convertStatToMetric. now rewrite H. Qed.

(** The well-known translator reads the map at the catalog keys only. *)
Lemma produceMetrics_agree (m m' : gmap string string) :
  (forall k, k ∈ catalogKeys -> m !! k = m' !! k) ->
  produceMetrics m = produceMetrics m'.
Proof.
  intros H. unfold produceMetrics. apply flat_map_ext_elem.
  intros [[[statKey label] d] valueType] Hin.
  apply convertStatToMetric_agree, H.
  unfold catalogKeys. apply list_elem_of_fmap.
  now exists (statKey, label, d, valueType).
Qed.

Lemma convertScriptedMetric_agree (m m' : gmap string string) (k : string) :
  m !! k = m' !! k -> convertScriptedMetric m k = convertScriptedMetric m' k.
Proof.
  intros H. unfold convertScriptedMetric.
  destruct (gostrings.HasPrefix k "script."); [| reflexivity].
  now apply convertStatToMetric_agree.
Qed.

Lemma convertScriptedMetric_unprefixed (m : gmap string string) (k : string) :
  gostrings.HasPrefix k "script." = false -> convertScriptedMetric m k = [].
Proof. intros H. unfold convertScriptedMetric. now rewrite H. Qed.

Lemma filter_key_nil (k : string)
    (entries : list (string * string * Desc * ValueType)) :
  k ∉ map (fun '(statKey, _, _, _) => statKey) entries ->
  List.filter (fun '(statKey, _, _, _) => String.eqb statKey k) entries = [].
Proof.
  induction entries as [|[[[statKey label] d] valueType] entries IH];
    intros Hk; [reflexivity |].
  simpl in *. apply not_elem_of_cons in Hk as [Hne Hk].
  destruct (String.eqb_spec statKey k) as [Heq |]; [congruence |].
  now apply IH.
Qed.

(** The scripted translator is unchanged, up to the order of the loop, by
    the removal of a key that does not start with ["script."]. *)
Lemma convertScriptedMetrics_delete (m : gmap string string) (k : string) :
  gostrings.HasPrefix k "script." = false ->
  convertScriptedMetrics (delete k m) ≡ₚ convertScriptedMetrics m.
Proof.
  intros Hk. unfold convertScriptedMetrics.
  destruct (m !! k) as [v|] eqn:Hmk; [| now rewrite delete_id].
  transitivity
    (flat_map (fun kv => convertScriptedMetric m (fst kv))
       ((k, v) :: map_to_list (delete k m))).
  - cbn [flat_map fst].
    rewrite convertScriptedMetric_unprefixed by assumption. simpl.
    erewrite flat_map_ext_elem; [reflexivity |].
    intros [k' v'] Hin. simpl.
    apply convertScriptedMetric_agree.
    apply elem_of_map_to_list in Hin.
    apply lookup_delete_ne. intros ->.
    now rewrite lookup_delete_eq in Hin.
  - apply Permutation_flat_map, map_to_list_delete, Hmk.
Qed.

(** C8.  A key that is neither a stat key of the catalog nor prefixed with
    ["script."] produces no sample: the well-known translator makes no
    conversion call for it, the body of the scripted loop sends nothing for
    it, and removing the key from the map, or giving it any value, changes
    the samples of neither translator (for the scripted one, up to the
    order in which the map is walked). *)
Theorem no_sample_for_foreign_key (m : gmap string string) (k : string) :
  k ∉ catalogKeys ->
  gostrings.HasPrefix k "script." = false ->
  catalogFor k = []
  /\ convertScriptedMetric m k = []
  /\ produceMetrics (delete k m) = produceMetrics m
  /\ convertScriptedMetrics (delete k m) ≡ₚ convertScriptedMetrics m
  /\ (forall v, produceMetrics (<[k := v]> m) = produceMetrics m
               /\ convertScriptedMetrics (<[k := v]> m)
                  ≡ₚ convertScriptedMetrics m).
Proof.
  intros Hcat Hscript.
  assert (Hdel : forall m', produceMetrics (delete k m') = produceMetrics m').
  { intros m'. apply produceMetrics_agree. intros k' Hk'.
    apply lookup_delete_ne. intros ->. contradiction. }
  split; [now apply filter_key_nil |].
  split; [now apply convertScriptedMetric_unprefixed |].
  split; [apply Hdel |].
  split; [now apply convertScriptedMetrics_delete |].
  intros v. split.
  - rewrite <- (Hdel (<[k := v]> m)), delete_insert_eq. apply Hdel.
  - rewrite <- (convertScriptedMetrics_delete (<[k := v]> m) k Hscript).
    rewrite delete_insert_eq. now apply convertScriptedMetrics_delete.
Qed.

Lemma countingSuffix_script (X : string) :
  countingSuffix ("script." +:+ X) = countingSuffix X.
Proof.
  unfold countingSuffix.
  now rewrite HasSuffix_script_total, HasSuffix_script_seconds,
    HasSuffix_script_bytes.
Qed.

Lemma convertScriptedMetric_script (data : gmap string string)
    (X value : string) (v : strconv.float64) :
  data !! ("script." +:+ X) = Some value ->
  ParseFloat value = Some v ->
  convertScriptedMetric data ("script." +:+ X)
  = [mkMetric
       (NewDesc ("kamailio_" +:+ ToLower X) ("Scripted metric " +:+ ToLower X)
          [] constLabels)
       (if countingSuffix X then CounterValue else GaugeValue) v []].
Proof.
  intros Hdata Hv. unfold convertScriptedMetric.
  rewrite HasPrefix_app, TrimPrefix_app.
  fold (countingSuffix ("script." +:+ X)). rewrite countingSuffix_script.
  unfold convertStatToMetric. rewrite Hdata, Hv. reflexivity.
Qed.

(** C4.  For a key [script.X] of the flat map whose value parses as a
    float, the scripted translator emits, at the one visit of that key,
    exactly one sample: it has no labels, its name is [kamailio_] followed
    by [X] lower-cased, its value is the parsed float, and it is a counter
    if [X] or the prefixed key ends in [_total], [_seconds] or [_bytes]
    and a gauge otherwise. *)
Theorem scripted_sample (data : gmap string string) (X value : string)
    (v : strconv.float64) :
  data !! ("script." +:+ X) = Some value ->
  ParseFloat value = Some v ->
  exists before after : list (string * string),
    map_to_list data = before ++ ("script." +:+ X, value) :: after
    /\ ("script." +:+ X ∉ map fst before)
    /\ ("script." +:+ X ∉ map fst after)
    /\ convertScriptedMetrics data
       = flat_map (fun kv => convertScriptedMetric data (fst kv)) before
         ++ [mkMetric
               (NewDesc ("kamailio_" +:+ ToLower X)
                  ("Scripted metric " +:+ ToLower X) [] constLabels)
               (if countingSuffix X || countingSuffix ("script." +:+ X)
                then CounterValue else GaugeValue)
               v []]
         ++ flat_map (fun kv => convertScriptedMetric data (fst kv)) after.
Proof.
  intros Hdata Hv.
  destruct (map_to_list_split data _ _ Hdata)
    as (before & after & Hsplit & Hbefore & Hafter).
  exists before, after. repeat (split; [assumption |]).
  unfold convertScriptedMetrics. rewrite Hsplit, flat_map_app.
  cbn [flat_map fst].
  rewrite (convertScriptedMetric_script data X value v Hdata Hv).
  rewrite countingSuffix_script, orb_diag. reflexivity.
Qed.

(** The scenario map agrees with every map of the scenario on the catalog
    keys. *)
Lemma scenario_catalog_lookup (m : gmap string string) (k : string) :
  m !! "core.rcv_requests" = Some "42" ->
  m !! "sl.200_replies" = Some "10" ->
  (forall k, is_Some (m !! k) ->
             k ∈ catalogKeys \/ gostrings.HasPrefix k "script." = true ->
             k ∈ scenarioKeys) ->
  k ∈ catalogKeys ->
  m !! k = scenarioStats !! k.
Proof.
  intros Hrcv Hsl Hother Hk.
  destruct (decide (k = "core.rcv_requests")) as [-> | Hn1];
    [now rewrite Hrcv |].
  destruct (decide (k = "sl.200_replies")) as [-> | Hn2];
    [now rewrite Hsl |].
  destruct (decide (k = "script.custom_total")) as [-> | Hn3].
  { exfalso. revert Hk. apply (bool_decide_unpack _). vm_compute. exact I. }
  unfold scenarioStats. rewrite !lookup_insert_ne, lookup_empty by congruence.
  destruct (m !! k) as [v|] eqn:Hmk; [| reflexivity].
  exfalso. assert (Hin : k ∈ scenarioKeys) by (apply Hother; eauto).
  unfold scenarioKeys in Hin.
  repeat (apply elem_of_cons in Hin as [-> | Hin]); try congruence.
  now apply elem_of_nil in Hin.
Qed.

(** C3 (as amended).  For every flat map that holds
    [core.rcv_requests = 42], [sl.200_replies = 10] and
    [script.custom_total = 5] and no other catalog or script-prefixed key,
    the two translators emit exactly three counter samples:
    [kamailio_core_request_total{method="rcv"} = 42],
    [kamailio_sl_reply_total{code="200"} = 10] and
    [kamailio_custom_total = 5]. *)
Theorem scenario_samples (m : gmap string string) :
  m !! "core.rcv_requests" = Some "42" ->
  m !! "sl.200_replies" = Some "10" ->
  m !! "script.custom_total" = Some "5" ->
  (forall k, is_Some (m !! k) ->
             k ∈ catalogKeys \/ gostrings.HasPrefix k "script." = true ->
             k ∈ scenarioKeys) ->
  produceMetrics m ++ convertScriptedMetrics m
  = [ mkMetric
        (NewDesc "kamailio_core_request_total" "Request counters" ["method"]
           constLabels)
        CounterValue (strconv.roundInteger false 42) ["rcv"];
      mkMetric
        (NewDesc "kamailio_sl_reply_total" "Stateless replies by code" ["code"]
           constLabels)
        CounterValue (strconv.roundInteger false 10) ["200"];
      mkMetric
        (NewDesc "kamailio_custom_total" "Scripted metric custom_total" []
           constLabels)
        CounterValue (strconv.roundInteger false 5) [] ].
Proof.
  intros Hrcv Hsl Hcustom Hother.
  rewrite (produceMetrics_agree m scenarioStats)
    by (intros k Hk; now apply scenario_catalog_lookup).
  destruct (map_to_list_split m _ _ Hcustom)
    as (before & after & Hsplit & Hbefore & Hafter).
  assert (Hskip : forall l : list (string * string),
             (forall kv, kv ∈ l -> kv ∈ map_to_list m) ->
             "script.custom_total" ∉ map fst l ->
             flat_map (fun kv => convertScriptedMetric m (fst kv)) l = []).
  { intros l Hsub Hnot. apply flat_map_nil. intros [k v] Hkv. simpl.
    apply convertScriptedMetric_unprefixed.
    destruct (gostrings.HasPrefix k "script.") eqn:Hpre; [| reflexivity].
    exfalso.
    assert (Hin : k ∈ scenarioKeys).
    { apply Hother; [| now right].
      exists v. apply elem_of_map_to_list. now apply Hsub. }
    unfold scenarioKeys in Hin.
    repeat (apply elem_of_cons in Hin as [-> | Hin]); try discriminate.
    - apply Hnot. apply list_elem_of_fmap. now exists ("script.custom_total", v).
    - now apply elem_of_nil in Hin. }
  unfold convertScriptedMetrics. rewrite Hsplit, flat_map_app.
  cbn [flat_map fst].
  rewrite !Hskip; try assumption.
  - rewrite (convertScriptedMetric_agree m scenarioStats)
      by (rewrite Hcustom; reflexivity).
    vm_compute. reflexivity.
  - intros kv Hkv. rewrite Hsplit. apply elem_of_app. right.
    now apply list_elem_of_further.
  - intros kv Hkv. rewrite Hsplit. apply elem_of_app. now left.
Qed.

(** *** Further properties of the RPC invoker *)

Lemma execRPCCommand_unfold (c : StatsCollector) (command param : string) :
  execRPCCommand c command param
  = let dialed := net.Dialed (fst (dialTarget c)) (snd (dialTarget c)) in
    match net.Dial world (fst (dialTarget c)) (snd (dialTarget c)) with
    | inr err => ([dialed], Err err)
    | inl conn =>
        match net.WritePacket world conn command (sentParams param) with
        | inr err =>
            ([dialed; net.Wrote conn command (sentParams param);
              net.Closed conn], Err err)
        | inl cookie =>
            ([dialed; net.Wrote conn command (sentParams param);
              net.ReadReply conn cookie; net.Closed conn],
             match net.ReadPacket world conn cookie with
             | inr err => Err err
             | inl records => Ok records
             end)
        end
    end.
Proof.
  unfold execRPCCommand, dialTarget, sentParams.
  destruct (String.eqb (kamailioHost c) ""); simpl;
    (destruct (net.Dial world _ _) as [conn|]; [| reflexivity]);
    (destruct (net.WritePacket world conn _ _) as [cookie|]; [| reflexivity]);
    destruct (net.ReadPacket world conn cookie); reflexivity.
Qed.

(** X1.  [execRPCCommand] closes what it opens: when the dial succeeds the
    connection is closed exactly once and closing is the last thing done,
    whether the write or the read failed or not; when the dial fails no
    connection is closed, nothing is written or read, and the dial error
    is the result. *)
Theorem execRPCCommand_closes_connection (c : StatsCollector)
    (command param : string) :
  match net.Dial world (fst (dialTarget c)) (snd (dialTarget c)) with
  | inl conn =>
      List.filter isClosed (fst (execRPCCommand c command param))
      = [net.Closed conn]
      /\ last (fst (execRPCCommand c command param)) = Some (net.Closed conn)
  | inr err =>
      execRPCCommand c command param
      = ([net.Dialed (fst (dialTarget c)) (snd (dialTarget c))], Err err)
  end.
Proof.
  rewrite execRPCCommand_unfold. cbv zeta.
  destruct (net.Dial world _ _) as [conn|]; [| reflexivity].
  destruct (net.WritePacket world conn _ _) as [cookie|]; split; reflexivity.
Qed.

(** X2.  [execRPCCommand] returns records exactly when the dial, the write
    and the read all succeed, and then they are the records read on the
    dialled connection with the cookie the write returned; the command is
    written alone when the parameter is empty and with the parameter
    otherwise. *)
Theorem execRPCCommand_returns_records (c : StatsCollector)
    (command param : string) (records : list binrpc.RawRecord) :
  snd (execRPCCommand c command param) = Ok records
  <-> exists (conn : net.Conn) (cookie : net.Cookie),
        net.Dial world (fst (dialTarget c)) (snd (dialTarget c)) = inl conn
        /\ net.WritePacket world conn command
             (if String.eqb param "" then [] else [param]) = inl cookie
        /\ net.ReadPacket world conn cookie = inl records.
Proof.
  rewrite execRPCCommand_unfold. cbv zeta. fold (sentParams param). split.
  - destruct (net.Dial world _ _) as [conn|]; [| discriminate].
    destruct (net.WritePacket world conn _ _) as [cookie|] eqn:Hw;
      [| discriminate].
    destruct (net.ReadPacket world conn cookie) eqn:Hr; [| discriminate].
    simpl. intros [= <-]. now exists conn, cookie.
  - intros (conn & cookie & -> & -> & ->). reflexivity.
Qed.

(** The first failing step decides the error. *)
Lemma execRPCCommand_dial_error (c : StatsCollector) (command param : string)
    (e : error) :
  (forall network address, net.Dial world network address = inr e) ->
  snd (execRPCCommand c command param) = Err e.
Proof.
  intros Hdial. rewrite execRPCCommand_unfold. cbv zeta. now rewrite Hdial.
Qed.


(** *** The collection cycle *)

Lemma fetchPKGMemStats_no_panic (c : StatsCollector) (reason : string) :
  fetchPKGMemStats c <> Panic reason.
Proof.
  unfold fetchPKGMemStats.
  destruct (snd (execRPCCommand c "pkg.stats" "")) eqn:H; try discriminate.
  now apply execRPCCommand_no_panic in H.
Qed.

Lemma Collect_sent (c : StatsCollector) :
  fst (Collect c)
  = match fetchPKGMemStats c with
    | Ok memStatMap => producePKGMemMetrics memStatMap
    | _ => []
    end
    ++ match fetchStats c with
       | Ok completeStatMap =>
           produceMetrics completeStatMap
           ++ convertScriptedMetrics completeStatMap
       | _ => []
       end.
Proof.
  unfold Collect.
  destruct (fetchPKGMemStats c) as [entries | e | reason] eqn:Hmem.
  - destruct (fetchStats c); simpl; now rewrite ?app_nil_r.
  - destruct (fetchStats c); reflexivity.
  - now apply fetchPKGMemStats_no_panic in Hmem.
Qed.

Lemma Collect_panic (c : StatsCollector) :
  snd (Collect c) = match fetchStats c with Panic p => Some p | _ => None end.
Proof.
  unfold Collect.
  destruct (fetchPKGMemStats c) as [entries | e | reason] eqn:Hmem.
  - destruct (fetchStats c); reflexivity.
  - destruct (fetchStats c); reflexivity.
  - now apply fetchPKGMemStats_no_panic in Hmem.
Qed.

(** X3.  The two branches of a collection cycle are independent: the
    samples sent are the memory samples of a successful memory fetch
    followed by the well-known and then the scripted samples of a
    successful stats fetch; a fetch that fails contributes nothing and
    does not suppress the other branch.  The cycle panics only through the
    stats fetch. *)
Theorem Collect_branches_independent (c : StatsCollector) :
  Collect c
  = ( match fetchPKGMemStats c with
      | Ok memStatMap => producePKGMemMetrics memStatMap
      | _ => []
      end
      ++ match fetchStats c with
         | Ok completeStatMap =>
             produceMetrics completeStatMap
             ++ convertScriptedMetrics completeStatMap
         | _ => []
         end,
      match fetchStats c with Panic p => Some p | _ => None end ).
Proof.
  rewrite <- Collect_sent, <- Collect_panic. now destruct (Collect c).
Qed.

(** X4.  A collection cycle panics exactly when the reply to [stats.fetch]
    holds no record; whatever the memory fetch produced has been sent by
    then. *)
Theorem Collect_panics_iff_empty_stats_reply (c : StatsCollector) :
  (snd (Collect c) <> None
   <-> snd (execRPCCommand c "stats.fetch" "all") = Ok [])
  /\ (snd (Collect c) <> None ->
      fst (Collect c)
      = match fetchPKGMemStats c with
        | Ok memStatMap => producePKGMemMetrics memStatMap
        | _ => []
        end).
Proof.
  rewrite Collect_sent, Collect_panic.
  pose proof (fetchStats_outcome c) as Hout.
  destruct (snd (execRPCCommand c "stats.fetch" "all"))
    as [[|record0 rest] | e | reason]; [| | | contradiction];
    rewrite Hout; split; try (split; congruence); try congruence.
  intros _. now rewrite app_nil_r.
Qed.

(** X5.  When nobody answers the dial, a collection cycle sends nothing and
    does not panic. *)
Theorem Collect_unreachable (c : StatsCollector) (e : error) :
  (forall network address, net.Dial world network address = inr e) ->
  Collect c = ([], None).
Proof.
  intros Hdial. unfold Collect, fetchPKGMemStats, fetchStats.
  now rewrite !(execRPCCommand_dial_error _ _ _ e Hdial).
Qed.


(** *** Further properties of the well-known translator *)

Lemma convertStatToMetric_length (m : gmap string string)
    (statKey label : string) (d : Desc) (valueType : ValueType) :
  (length (convertStatToMetric m statKey label d valueType) <= 1)%nat.
Proof.
  unfold convertStatToMetric.
  destruct (m !! statKey); [| simpl; lia].
  destruct (ParseFloat _); [| simpl; lia].
  destruct (NewConstMetric _ _ _ _); simpl; lia.
Qed.

(** X6.  [convertStatToMetric] sends at most one sample, and sends one
    exactly when the stat is in the map, its value parses as a float and
    the number of label values (one for a non-empty optional label value,
    none otherwise) is the number of labels of the description; the
    sample then carries the description, the value type, the parsed value
    and those label values.  A missing stat, an unparsable value and a
    label count that does not fit are all skipped. *)
Theorem convertStatToMetric_emits (m : gmap string string)
    (statKey label : string) (d : Desc) (valueType : ValueType) :
  (length (convertStatToMetric m statKey label d valueType) <= 1)%nat
  /\ forall s : Metric,
       convertStatToMetric m statKey label d valueType = [s]
       <-> exists (v : string) (f : strconv.float64),
             m !! statKey = Some v
             /\ ParseFloat v = Some f
             /\ length (if String.eqb label "" then [] else [label])
                = length (variableLabels d)
             /\ s = mkMetric d valueType f
                      (if String.eqb label "" then [] else [label]).
Proof.
  split; [apply convertStatToMetric_length |].
  intros s. unfold convertStatToMetric, NewConstMetric.
  replace (if negb (String.eqb label "") then [label] else [])
    with (if String.eqb label "" then [] else [label])
    by now destruct (String.eqb label "").
  set (labels := if String.eqb label "" then [] else [label]).
  split.
  - destruct (m !! statKey) as [v|] eqn:Hv; [| discriminate].
    destruct (ParseFloat v) as [f|] eqn:Hf; [| discriminate].
    destruct (Nat.eqb_spec (length labels) (length (variableLabels d)))
      as [Hlen |]; [| discriminate].
    intros [= <-]. exists v, f. repeat split; assumption.
  - intros (v & f & -> & -> & Hlen & ->).
    apply Nat.eqb_eq in Hlen. now rewrite Hlen.
Qed.

Lemma catalog_labelCountOk : forallb labelCountOk catalog = true.
Proof. vm_compute. reflexivity. Qed.

(** For a catalog entry the label count always fits. *)
Lemma convertStatToMetric_catalog (m : gmap string string)
    (statKey label : string) (d : Desc) (valueType : ValueType) :
  (statKey, label, d, valueType) ∈ catalog ->
  convertStatToMetric m statKey label d valueType
  = catalogSample m (statKey, label, d, valueType).
Proof.
  intros Hin. apply list_elem_of_In in Hin.
  pose proof (proj1 (forallb_forall _ _) catalog_labelCountOk _ Hin) as Hok.
  unfold labelCountOk, labelsOf in Hok. apply Nat.eqb_eq in Hok.
  unfold convertStatToMetric, catalogSample, NewConstMetric, labelsOf.
  destruct (m !! statKey) as [v|]; [| reflexivity].
  destruct (ParseFloat v) as [f|]; [| reflexivity].
  apply Nat.eqb_eq in Hok. now rewrite Hok.
Qed.

Lemma produceMetrics_catalogSample (m : gmap string string) :
  produceMetrics m = flat_map (catalogSample m) catalog.
Proof.
  unfold produceMetrics. apply flat_map_ext_elem.
  intros [[[statKey label] d] valueType] Hin.
  now apply convertStatToMetric_catalog.
Qed.

Lemma catalogSample_length (m : gmap string string)
    (entry : string * string * Desc * ValueType) :
  (length (catalogSample m entry) <= 1)%nat.
Proof.
  destruct entry as [[[statKey label] d] valueType]. unfold catalogSample.
  destruct (m !! statKey); [| simpl; lia].
  destruct (ParseFloat _); simpl; lia.
Qed.

Lemma flat_map_length_le {A B} (f : A -> list B) (l : list A) :
  (forall x, length (f x) <= 1)%nat ->
  (length (flat_map f l) <= length l)%nat.
Proof.
  intros Hf. induction l as [|x l IH]; simpl; [lia |].
  rewrite length_app. specialize (Hf x). lia.
Qed.

(** X7.  No conversion of the catalog is ever dropped for its label count:
    [produceMetrics] sends, in the order of the catalog, one sample for
    each of its 99 entries whose stat is in the map with a value that
    parses, and nothing for the other entries. *)
Theorem produceMetrics_catalog_order (m : gmap string string) :
  produceMetrics m = flat_map (catalogSample m) catalog
  /\ (length (produceMetrics m) <= 99)%nat
  /\ (forall statKey label d valueType v f,
        (statKey, label, d, valueType) ∈ catalog ->
        m !! statKey = Some v ->
        ParseFloat v = Some f ->
        mkMetric d valueType f (if String.eqb label "" then [] else [label])
        ∈ produceMetrics m).
Proof.
  split; [apply produceMetrics_catalogSample |]. split.
  - rewrite produceMetrics_catalogSample.
    pose proof (flat_map_length_le (catalogSample m) catalog
                  (catalogSample_length m)) as Hle.
    assert (Hcat : length catalog = 99%nat) by (vm_compute; reflexivity).
    lia.
  - intros statKey label d valueType v f Hin Hv Hf.
    rewrite produceMetrics_catalogSample.
    apply list_elem_of_In, in_flat_map.
    exists (statKey, label, d, valueType).
    split; [now apply list_elem_of_In |].
    unfold catalogSample, labelsOf. rewrite Hv, Hf.
    destruct (String.eqb label ""); now left.
Qed.


Lemma catalogSample_delete_same (m : gmap string string) (k : string)
    (entry : string * string * Desc * ValueType) :
  entryKey entry = k -> catalogSample (delete k m) entry = [].
Proof.
  destruct entry as [[[statKey label] d] valueType]. simpl. intros ->.
  now rewrite lookup_delete_eq.
Qed.

Lemma catalogSample_delete_other (m : gmap string string) (k : string)
    (entry : string * string * Desc * ValueType) :
  entryKey entry <> k ->
  catalogSample (delete k m) entry = catalogSample m entry.
Proof.
  destruct entry as [[[statKey label] d] valueType]. simpl. intros Hne.
  rewrite lookup_delete_ne by congruence. reflexivity.
Qed.

Lemma flat_map_catalogSample_delete (m : gmap string string) (k : string)
    (entries : list (string * string * Desc * ValueType)) :
  flat_map (catalogSample (delete k m)) entries
  = flat_map (catalogSample m) (otherEntries k entries).
Proof.
  unfold otherEntries.
  induction entries as [|entry entries IH]; [reflexivity |].
  cbn [flat_map List.filter].
  destruct (String.eqb_spec (entryKey entry) k) as [Heq | Hne]; cbn [negb].
  - now rewrite catalogSample_delete_same.
  - cbn [flat_map]. rewrite catalogSample_delete_other by assumption.
    now rewrite IH.
Qed.

Lemma otherEntries_absent (k : string)
    (entries : list (string * string * Desc * ValueType)) :
  k ∉ map entryKey entries -> otherEntries k entries = entries.
Proof.
  unfold otherEntries.
  induction entries as [|entry entries IH]; intros Hk; [reflexivity |].
  cbn [map] in Hk. apply not_elem_of_cons in Hk as [Hne Hk].
  cbn [List.filter].
  destruct (String.eqb_spec (entryKey entry) k) as [Heq |]; [congruence |].
  cbn [negb]. now rewrite IH.
Qed.

Lemma flat_map_otherEntries_length (m : gmap string string) (k : string)
    (entries : list (string * string * Desc * ValueType)) :
  NoDup (map entryKey entries) ->
  (length (flat_map (catalogSample m) (otherEntries k entries))
   <= length (flat_map (catalogSample m) entries)
   <= S (length (flat_map (catalogSample m) (otherEntries k entries))))%nat.
Proof.
  induction entries as [|entry entries IH]; intros Hnd; [simpl; lia |].
  cbn [map] in Hnd. apply NoDup_cons in Hnd as [Hfresh Hnd].
  specialize (IH Hnd).
  pose proof (catalogSample_length m entry) as Hone.
  unfold otherEntries in *. cbn [List.filter flat_map].
  destruct (String.eqb_spec (entryKey entry) k) as [Heq | Hne]; cbn [negb].
  - fold (otherEntries k entries).
    rewrite otherEntries_absent by (rewrite <- Heq; exact Hfresh).
    rewrite length_app. lia.
  - cbn [flat_map]. rewrite !length_app. lia.
Qed.

Lemma catalogKeys_NoDup : NoDup catalogKeys.
Proof. apply (bool_decide_unpack _). vm_compute. exact I. Qed.

(** X8.  Removing a stat from the map removes the samples of the catalog
    entries for that stat and nothing else: the samples of the other
    entries stay, in the same order.  As no stat key stands twice in the
    catalog, at most one sample disappears. *)
Theorem produceMetrics_delete_key (m : gmap string string) (k : string) :
  produceMetrics (delete k m)
  = flat_map (catalogSample m)
      (List.filter (fun entry => negb (String.eqb (entryKey entry) k)) catalog)
  /\ (length (produceMetrics (delete k m)) <= length (produceMetrics m)
      <= S (length (produceMetrics (delete k m))))%nat.
Proof.
  rewrite !produceMetrics_catalogSample, flat_map_catalogSample_delete.
  split; [reflexivity |].
  apply flat_map_otherEntries_length. exact catalogKeys_NoDup.
Qed.

Lemma catalogKeys_unprefixed :
  forallb (fun k => negb (gostrings.HasPrefix k "script.")) catalogKeys = true.
Proof. vm_compute. reflexivity. Qed.

Lemma catalogKey_unprefixed (k : string) :
  k ∈ catalogKeys -> gostrings.HasPrefix k "script." = false.
Proof.
  intros Hk. apply list_elem_of_In in Hk.
  pose proof (proj1 (forallb_forall _ _) catalogKeys_unprefixed k Hk) as H.
  now apply negb_true_iff in H.
Qed.

(** X9.  No stat is translated twice: the scripted loop sends nothing for a
    stat key of the catalog, and the well-known translator makes no
    conversion for a key that starts with ["script."]. *)
Theorem translators_disjoint (m : gmap string string) (k : string) :
  (k ∈ catalogKeys -> convertScriptedMetric m k = [])
  /\ (gostrings.HasPrefix k "script." = true -> catalogFor k = []).
Proof.
  split.
  - intros Hk. apply convertScriptedMetric_unprefixed.
    now apply catalogKey_unprefixed.
  - intros Hpre. apply filter_key_nil. intros Hk.
    apply catalogKey_unprefixed in Hk. congruence.
Qed.


(** *** Further properties of the memory translator *)

Lemma convertPKGStatToMetric_pkgField (e : MemoryEntry) (field type : string) :
  convertPKGStatToMetric field ([Entry e; Pid e; Rank e] ++ [type])
  = pkgField e field type.
Proof.
  unfold convertPKGStatToMetric, pkgField.
  now destruct (ParseFloat field).
Qed.

Lemma producePKGMemMetrics_pkgFields (entries : list MemoryEntry) :
  producePKGMemMetrics entries = flat_map pkgFields entries.
Proof.
  unfold producePKGMemMetrics, pkgFields. apply flat_map_ext.
  intros e. now rewrite !convertPKGStatToMetric_pkgField.
Qed.

Lemma Forall_flat_map {A B} (P : B -> Prop) (f : A -> list B) (l : list A) :
  (forall x, x ∈ l -> Forall P (f x)) -> Forall P (flat_map f l).
Proof.
  induction l as [|x l IH]; intros Hf; [constructor |].
  simpl. apply Forall_app. split.
  - apply Hf, list_elem_of_here.
  - apply IH. intros y Hy. apply Hf. now apply list_elem_of_further.
Qed.

Lemma Forall_pkgField (P : Metric -> Prop) (e : MemoryEntry)
    (field type : string) :
  (forall v, ParseFloat field = Some v -> P (pkgSample e type v)) ->
  Forall P (pkgField e field type).
Proof.
  intros H. unfold pkgField.
  destruct (ParseFloat field) as [v|]; [| constructor].
  repeat constructor. now apply H.
Qed.


(** X11.  Every sample of the memory translator is a gauge on the
    [kamailio_pkg_bytes] description with four label values: the entry,
    pid and rank of one of the entries given, and one of [used], [free],
    [real_used], [total], [total_frags]. *)
Theorem producePKGMemMetrics_samples (entries : list MemoryEntry) :
  Forall (fun s =>
            desc s = pkgmem_bytes
            /\ valType s = GaugeValue
            /\ exists e type,
                 e ∈ entries /\ type ∈ pkgTypes
                 /\ labelValues s = [Entry e; Pid e; Rank e; type])
    (producePKGMemMetrics entries).
Proof.
  rewrite producePKGMemMetrics_pkgFields.
  apply Forall_flat_map. intros e He. unfold pkgFields.
  repeat (apply Forall_app; split);
    apply Forall_pkgField; intros v _;
    (split; [reflexivity |]); (split; [reflexivity |]);
    eexists e, _; (split; [exact He |]); (split; [| reflexivity]);
    unfold pkgTypes; repeat first [ apply list_elem_of_here
                                  | apply list_elem_of_further ].
Qed.

(** *** Names *)

Lemma catalog_names :
  forallb (fun entry : string * string * Desc * ValueType =>
             let '(_, _, d, _) := entry in
             gostrings.HasPrefix (fqName d) "kamailio_") catalog = true.
Proof. vm_compute. reflexivity. Qed.

Lemma Forall_catalogSample (P : Metric -> Prop) (m : gmap string string)
    (statKey label : string) (d : Desc) (valueType : ValueType) :
  (forall f, P (mkMetric d valueType f (labelsOf label))) ->
  Forall P (catalogSample m (statKey, label, d, valueType)).
Proof.
  intros H. unfold catalogSample.
  destruct (m !! statKey) as [v|]; [| constructor].
  destruct (ParseFloat v) as [f|]; [| constructor].
  repeat constructor. apply H.
Qed.

(** What the scripted loop sends for a key, if anything. *)
Lemma convertScriptedMetric_inv (data : gmap string string) (k : string)
    (s : Metric) :
  s ∈ convertScriptedMetric data k ->
  exists v : string,
    data !! k = Some v
    /\ gostrings.HasPrefix k "script." = true
    /\ ParseFloat v = Some (val s)
    /\ desc s
       = NewDesc ("kamailio_" +:+ ToLower (gostrings.TrimPrefix k "script."))
           ("Scripted metric " +:+ ToLower (gostrings.TrimPrefix k "script."))
           [] constLabels
    /\ labelValues s = [].
Proof.
  unfold convertScriptedMetric, convertStatToMetric.
  destruct (gostrings.HasPrefix k "script.") eqn:Hpre;
    [| intros H; now apply elem_of_nil in H].
  destruct (data !! k) as [v|]; [| intros H; now apply elem_of_nil in H].
  destruct (ParseFloat v) as [f|] eqn:Hf;
    [| intros H; now apply elem_of_nil in H].
  simpl. intros H. apply list_elem_of_singleton in H as ->.
  exists v. repeat split. exact Hf.
Qed.

(** X12.  Every sample of a collection cycle is named with the prefix
    [kamailio_], whichever translator sent it. *)
Theorem metric_names_prefixed (entries : list MemoryEntry)
    (m : gmap string string) :
  Forall (fun s => gostrings.HasPrefix (fqName (desc s)) "kamailio_" = true)
    (producePKGMemMetrics entries ++ produceMetrics m
     ++ convertScriptedMetrics m).
Proof.
  apply Forall_app; split; [| apply Forall_app; split].
  - rewrite producePKGMemMetrics_pkgFields.
    apply Forall_flat_map. intros e _. unfold pkgFields.
    repeat (apply Forall_app; split); apply Forall_pkgField; reflexivity.
  - rewrite produceMetrics_catalogSample.
    apply Forall_flat_map. intros [[[statKey label] d] valueType] Hin.
    apply Forall_catalogSample. intros f. simpl.
    apply list_elem_of_In in Hin.
    exact (proj1 (forallb_forall _ _) catalog_names _ Hin).
  - unfold convertScriptedMetrics.
    apply Forall_flat_map. intros [k v] _. apply Forall_forall.
    intros s Hs. simpl in Hs.
    apply convertScriptedMetric_inv in Hs as (_ & _ & _ & _ & -> & _).
    apply HasPrefix_app.
Qed.

(** X13.  Every sample of the scripted translator comes from a key of the
    map that starts with ["script."] and whose value parses to the
    sample's value; it has no labels and is named [kamailio_] followed by
    the lower-cased rest of the key.  There are at most as many scripted
    samples as the map has keys. *)
Theorem convertScriptedMetrics_samples (data : gmap string string) :
  Forall (fun s =>
            exists k v : string,
              data !! k = Some v
              /\ gostrings.HasPrefix k "script." = true
              /\ ParseFloat v = Some (val s)
              /\ fqName (desc s)
                 = "kamailio_" +:+ ToLower (gostrings.TrimPrefix k "script.")
              /\ variableLabels (desc s) = []
              /\ labelValues s = [])
    (convertScriptedMetrics data)
  /\ (length (convertScriptedMetrics data) <= size data)%nat.
Proof.
  split.
  - unfold convertScriptedMetrics.
    apply Forall_flat_map. intros [k v] _. apply Forall_forall.
    intros s Hs. simpl in Hs.
    apply convertScriptedMetric_inv in Hs as (v' & Hv & Hpre & Hf & Hd & Hl).
    exists k, v'. rewrite Hd. repeat split; assumption.
  - rewrite <- (length_map_to_list data). unfold convertScriptedMetrics.
    apply flat_map_length_le.
    intros [k v]. unfold convertScriptedMetric. simpl.
    destruct (gostrings.HasPrefix k "script."); [| simpl; lia].
    apply convertStatToMetric_length.
Qed.


(** *** Further properties of the scripted translator *)

Lemma convertScriptedMetrics_elem (data : gmap string string) (k v : string)
    (s : Metric) :
  data !! k = Some v ->
  s ∈ convertScriptedMetric data k ->
  s ∈ convertScriptedMetrics data.
Proof.
  intros Hk Hs. unfold convertScriptedMetrics.
  apply list_elem_of_In, in_flat_map. exists (k, v). split.
  - now apply list_elem_of_In, elem_of_map_to_list.
  - now apply list_elem_of_In.
Qed.

(** X14.  The names of scripted metrics ignore letter case while the keys
    of the map do not: two scripted stats whose names are equal once
    lower-cased are both exported, and on the same description. *)
Theorem scripted_names_ignore_case (data : gmap string string)
    (X1 X2 v1 v2 : string) (f1 f2 : strconv.float64) :
  data !! ("script." +:+ X1) = Some v1 ->
  data !! ("script." +:+ X2) = Some v2 ->
  ParseFloat v1 = Some f1 ->
  ParseFloat v2 = Some f2 ->
  ToLower X1 = ToLower X2 ->
  exists s1 s2 : Metric,
    convertScriptedMetric data ("script." +:+ X1) = [s1]
    /\ convertScriptedMetric data ("script." +:+ X2) = [s2]
    /\ s1 ∈ convertScriptedMetrics data
    /\ s2 ∈ convertScriptedMetrics data
    /\ val s1 = f1 /\ val s2 = f2
    /\ desc s1 = desc s2.
Proof.
  intros H1 H2 Hf1 Hf2 Hlow.
  pose proof (convertScriptedMetric_script data X1 v1 f1 H1 Hf1) as E1.
  pose proof (convertScriptedMetric_script data X2 v2 f2 H2 Hf2) as E2.
  eexists _, _. split; [exact E1 |]. split; [exact E2 |].
  split; [apply (convertScriptedMetrics_elem data _ v1 _ H1);
          rewrite E1; apply list_elem_of_here |].
  split; [apply (convertScriptedMetrics_elem data _ v2 _ H2);
          rewrite E2; apply list_elem_of_here |].
  simpl. now rewrite Hlow.
Qed.

Lemma append_assoc_string (a b c : string) : (a +:+ b) +:+ c = a +:+ (b +:+ c).
Proof.
  induction a as [|x a IH]; [reflexivity |].
  change (String x ((a +:+ b) +:+ c) = String x (a +:+ (b +:+ c))).
  now f_equal.
Qed.

Lemma HasSuffix_app_suffix (p suffix : string) :
  gostrings.HasSuffix (p +:+ suffix) suffix = true.
Proof.
  rewrite HasSuffix_app_ge by lia.
  unfold gostrings.HasSuffix. rewrite Nat.sub_diag. simpl.
  rewrite String.eqb_refl, andb_true_r. apply Nat.leb_le. lia.
Qed.

Lemma HasSuffix_inv (s suffix : string) :
  gostrings.HasSuffix s suffix = true -> exists p, s = p +:+ suffix.
Proof.
  unfold gostrings.HasSuffix. intros H.
  apply andb_prop in H as [Hlen Heq].
  apply Nat.leb_le in Hlen. apply String.eqb_eq in Heq.
  set (n := (String.length s - String.length suffix)%nat) in *.
  exists (String.substring 0 n s).
  rewrite <- Heq. apply substring_drop. subst n. lia.
Qed.

(** A string that ends in [a ++ b] ends in [b]. *)
Lemma HasSuffix_shorter (s a b : string) :
  gostrings.HasSuffix s (a +:+ b) = true -> gostrings.HasSuffix s b = true.
Proof.
  intros H. apply HasSuffix_inv in H as [p ->].
  rewrite <- append_assoc_string. apply HasSuffix_app_suffix.
Qed.

Lemma HasSuffix_same_length (Y T suffix : string) :
  String.length T = String.length suffix ->
  gostrings.HasSuffix (Y +:+ T) suffix = String.eqb T suffix.
Proof.
  intros Hlen. unfold gostrings.HasSuffix.
  rewrite length_app_string, <- Hlen.
  replace (String.length Y + String.length T - String.length T)%nat
    with (String.length Y) by lia.
  rewrite drop_app_length.
  replace (String.length T <=? String.length Y + String.length T)%nat
    with true by (symmetry; apply Nat.leb_le; lia).
  reflexivity.
Qed.

Lemma countingSuffix_upper_total (Y : string) :
  countingSuffix (Y +:+ "_TOTAL") = false.
Proof.
  unfold countingSuffix.
  rewrite (HasSuffix_same_length Y "_TOTAL" "_total") by reflexivity.
  rewrite (HasSuffix_same_length Y "_TOTAL" "_bytes") by reflexivity.
  destruct (gostrings.HasSuffix (Y +:+ "_TOTAL") "_seconds") eqn:Hsec;
    [| reflexivity].
  apply (HasSuffix_shorter _ "_s" "econds") in Hsec.
  rewrite (HasSuffix_same_length Y "_TOTAL" "econds") in Hsec by reflexivity.
  discriminate Hsec.
Qed.

Lemma isASCII_app (a b : string) :
  gostrings.isASCII (a +:+ b) = gostrings.isASCII a && gostrings.isASCII b.
Proof.
  induction a as [|x a IH]; simpl; [reflexivity |].
  now rewrite IH, andb_assoc.
Qed.

Lemma lowerASCII_app (a b : string) :
  gostrings.lowerASCII (a +:+ b)
  = gostrings.lowerASCII a +:+ gostrings.lowerASCII b.
Proof. induction a as [|x a IH]; simpl; [reflexivity | now rewrite IH]. Qed.

(** X15.  The kind of a scripted metric is read off the key as reported,
    the name off the lower-cased key: a scripted stat [script.Y_TOTAL]
    with an ASCII name is exported as [kamailio_<y>_total], a name that
    ends in [_total], but as a gauge. *)
Theorem scripted_upper_case_total_is_gauge (data : gmap string string)
    (Y value : string) (v : strconv.float64) :
  gostrings.isASCII Y = true ->
  data !! ("script." +:+ (Y +:+ "_TOTAL")) = Some value ->
  ParseFloat value = Some v ->
  convertScriptedMetric data ("script." +:+ (Y +:+ "_TOTAL"))
  = [mkMetric
       (NewDesc ("kamailio_" +:+ (gostrings.lowerASCII Y +:+ "_total"))
          ("Scripted metric " +:+ (gostrings.lowerASCII Y +:+ "_total"))
          [] constLabels)
       GaugeValue v []].
Proof.
  intros Hascii Hdata Hv.
  rewrite (convertScriptedMetric_script data _ value v Hdata Hv).
  rewrite countingSuffix_upper_total.
  unfold ToLower, gostrings.ToLower.
  rewrite isASCII_app, Hascii, lowerASCII_app. reflexivity.
Qed.


(** *** Further properties of the memory record normalizer *)

Lemma memoryEntryOf_setsField (record : binrpc.RawRecord) (key : string) (n : Z) :
  key ∈ memoryKeys ->
  setsField record key n ->
  memoryField key (memoryEntryOf record) = strconv.Itoa n.
Proof.
  intros Hkey (before & after & Hitems & Hlast).
  rewrite memoryEntryOf_items, Hitems.
  now apply memoryField_foldl_last.
Qed.

(** X16.  In a memory entry, a field holds the decimal text of the last
    integer item the record has under the field's key: earlier items under
    that key are overwritten, and later items under it that are not
    integers do not touch the field. *)
Theorem memoryEntryOf_last_integer_wins (record : binrpc.RawRecord)
    (key : string) (n : Z) (before after : list binrpc.StructItem) :
  key ∈ memoryKeys ->
  fst (binrpc.StructItems record)
  = before ++ binrpc.mkStructItem key (binrpc.TypeInt n) :: after ->
  (forall later, later ∈ after -> binrpc.Key later = key ->
                 isInteger (binrpc.Value later) = false) ->
  memoryField key (memoryEntryOf record) = strconv.Itoa n.
Proof.
  intros Hkey Hitems Hlast. apply memoryEntryOf_setsField; [assumption |].
  now exists before, after.
Qed.

Lemma pkgField_Itoa (e : MemoryEntry) (type : string) (n : Z) :
  strconv.isInt n ->
  pkgField e (strconv.Itoa n) type = [pkgSample e type (floatOfInt n)].
Proof.
  intros Hn. unfold pkgField. now rewrite ParseFloat_Itoa.
Qed.

(** X17.  Normalizer and translator compose: for a record that carries an
    integer (a Go [int]) under each of [used], [free], [real_used],
    [total_size] and [total_frags], the memory translator sends exactly
    five samples for the record's entry, and their values are the
    binary64 numbers nearest to the five wire integers. *)
Theorem record_to_samples (record : binrpc.RawRecord)
    (used free realUsed total frags : Z) :
  setsField record "used" used ->
  setsField record "free" free ->
  setsField record "real_used" realUsed ->
  setsField record "total_size" total ->
  setsField record "total_frags" frags ->
  strconv.isInt used -> strconv.isInt free -> strconv.isInt realUsed ->
  strconv.isInt total -> strconv.isInt frags ->
  producePKGMemMetrics [memoryEntryOf record]
  = [pkgSample (memoryEntryOf record) "used" (floatOfInt used);
     pkgSample (memoryEntryOf record) "free" (floatOfInt free);
     pkgSample (memoryEntryOf record) "real_used" (floatOfInt realUsed);
     pkgSample (memoryEntryOf record) "total" (floatOfInt total);
     pkgSample (memoryEntryOf record) "total_frags" (floatOfInt frags)].
Proof.
  intros Hu Hf Hr Ht Hg Iu If' Ir It Ig.
  apply memoryEntryOf_setsField in Hu, Hf, Hr, Ht, Hg;
    try (unfold memoryKeys; set_solver).
  rewrite producePKGMemMetrics_pkgFields. cbn [flat_map].
  rewrite app_nil_r. unfold pkgFields.
  change (Used (memoryEntryOf record))
    with (memoryField "used" (memoryEntryOf record)).
  change (Free (memoryEntryOf record))
    with (memoryField "free" (memoryEntryOf record)).
  change (RealUsed (memoryEntryOf record))
    with (memoryField "real_used" (memoryEntryOf record)).
  change (TotalSize (memoryEntryOf record))
    with (memoryField "total_size" (memoryEntryOf record)).
  change (TotalFrags (memoryEntryOf record))
    with (memoryField "total_frags" (memoryEntryOf record)).
  rewrite Hu, Hf, Hr, Ht, Hg.
  rewrite !pkgField_Itoa by assumption. reflexivity.
Qed.

(** *** Further properties of the flat stat map builder *)

Lemma statItem_stored (result : gmap string string) (item : binrpc.StructItem) :
  statItem result item
  = <[binrpc.Key item := storedString (binrpc.Value item)]> result.
Proof. apply statItem_insert. Qed.

Lemma foldl_statItem_last (acc : gmap string string)
    (before after : list binrpc.StructItem) (item : binrpc.StructItem) :
  (forall later, later ∈ after -> binrpc.Key later <> binrpc.Key item) ->
  foldl statItem acc (before ++ item :: after) !! binrpc.Key item
  = Some (storedString (binrpc.Value item)).
Proof.
  intros Hlast. rewrite foldl_app. simpl.
  rewrite foldl_statItem_other by assumption.
  rewrite statItem_stored. apply lookup_insert_eq.
Qed.

Lemma NoDup_keys_later (before after : list binrpc.StructItem)
    (item : binrpc.StructItem) :
  NoDup (map binrpc.Key (before ++ item :: after)) ->
  forall later, later ∈ after -> binrpc.Key later <> binrpc.Key item.
Proof.
  rewrite map_app. cbn [map]. intros Hnd later Hlater Heq.
  apply NoDup_app in Hnd as (_ & _ & Hnd).
  apply NoDup_cons in Hnd as [Hfresh _]. apply Hfresh.
  rewrite <- Heq. apply list_elem_of_fmap. now exists later.
Qed.

Lemma foldl_statItem_size (items : list binrpc.StructItem)
    (acc : gmap string string) :
  NoDup (map binrpc.Key items) ->
  (forall item, item ∈ items -> acc !! binrpc.Key item = None) ->
  size (foldl statItem acc items) = (size acc + length items)%nat.
Proof.
  revert acc. induction items as [|item items IH]; intros acc Hnd Hfresh.
  - simpl. lia.
  - cbn [map] in Hnd. apply NoDup_cons in Hnd as [Hnew Hnd].
    cbn [foldl]. rewrite IH; [| assumption |].
    + rewrite statItem_stored, map_size_insert_None
        by apply Hfresh, list_elem_of_here.
      simpl. lia.
    + intros it Hit. rewrite statItem_stored, lookup_insert_ne.
      * apply Hfresh. now apply list_elem_of_further.
      * intros Heq. apply Hnew. rewrite Heq.
        apply list_elem_of_fmap. now exists it.
Qed.

(** X18.  Insert and look up: when the keys of the first record are
    pairwise distinct, the flat map has one key per item, and a key maps
    to a string exactly when the record has an item with that key and
    that stored string (the item's string, or the empty string for a
    value that is not a string). *)
Theorem fetchStats_distinct_keys (c : StatsCollector)
    (record0 : binrpc.RawRecord) (rest : list binrpc.RawRecord) :
  snd (execRPCCommand c "stats.fetch" "all") = Ok (record0 :: rest) ->
  NoDup (map binrpc.Key (fst (binrpc.StructItems record0))) ->
  exists result : gmap string string,
    fetchStats c = Ok result
    /\ size result = length (fst (binrpc.StructItems record0))
    /\ forall k s,
         result !! k = Some s
         <-> exists item,
               item ∈ fst (binrpc.StructItems record0)
               /\ binrpc.Key item = k
               /\ match binrpc.Value item with
                  | binrpc.TypeString str => str
                  | _ => ""
                  end = s.
Proof.
  intros Hrpc Hnd. eexists. split; [exact (fetchStats_Ok _ _ _ Hrpc) |].
  set (items := fst (binrpc.StructItems record0)) in *.
  assert (Hitem : forall item, item ∈ items ->
            foldl statItem ∅ items !! binrpc.Key item
            = Some (storedString (binrpc.Value item))).
  { intros item Hin.
    apply list_elem_of_split in Hin as (before & after & Hsplit).
    rewrite Hsplit. apply foldl_statItem_last.
    apply NoDup_keys_later with (before := before). now rewrite <- Hsplit. }
  split.
  - rewrite foldl_statItem_size; [now rewrite map_size_empty | assumption |].
    intros item _. apply lookup_empty.
  - intros k s. split.
    + intros Hk.
      assert (Hsome : is_Some (foldl statItem ∅ items !! k)) by eauto.
      apply foldl_statItem_is_Some in Hsome as [Hempty | (item & Hin & Hkey)].
      * rewrite lookup_empty in Hempty. now destruct Hempty.
      * exists item. split; [assumption |]. split; [assumption |].
        specialize (Hitem item Hin). rewrite Hkey in Hitem.
        unfold storedString in Hitem. congruence.
    + intros (item & Hin & <- & <-). now apply Hitem.
Qed.

(** X19.  A stat whose value is not a string is exported by neither
    translator: the key is stored with the empty string, which does not
    parse as a float, so no conversion of that key sends a sample. *)
Theorem fetchStats_non_string_stat_is_dropped (c : StatsCollector)
    (record0 : binrpc.RawRecord) (rest : list binrpc.RawRecord)
    (before after : list binrpc.StructItem) (item : binrpc.StructItem) :
  snd (execRPCCommand c "stats.fetch" "all") = Ok (record0 :: rest) ->
  fst (binrpc.StructItems record0) = before ++ item :: after ->
  (forall later, later ∈ after -> binrpc.Key later <> binrpc.Key item) ->
  (forall s, binrpc.Value item <> binrpc.TypeString s) ->
  exists result : gmap string string,
    fetchStats c = Ok result
    /\ (forall label d valueType,
          convertStatToMetric result (binrpc.Key item) label d valueType = [])
    /\ convertScriptedMetric result (binrpc.Key item) = [].
Proof.
  intros Hrpc Hitems Hlast Hvalue.
  eexists. split; [exact (fetchStats_Ok _ _ _ Hrpc) |].
  assert (Hk : foldl statItem ∅ (fst (binrpc.StructItems record0))
               !! binrpc.Key item = Some "").
  { rewrite Hitems, foldl_statItem_last by assumption.
    destruct (binrpc.Value item); try reflexivity. now destruct (Hvalue s). }
  assert (Hconv : forall label d valueType,
            convertStatToMetric
              (foldl statItem ∅ (fst (binrpc.StructItems record0)))
              (binrpc.Key item) label d valueType = []).
  { intros label d valueType. unfold convertStatToMetric.
    now rewrite Hk, ParseFloat_empty. }
  split; [exact Hconv |].
  unfold convertScriptedMetric.
  destruct (gostrings.HasPrefix _ _); [apply Hconv | reflexivity].
Qed.

(** X20.  From the wire to the channel: a stat of the catalog that the
    first record of the [stats.fetch] reply carries as a string which
    parses, under a key no later item repeats, is sent by the collection
    cycle on the catalog's description, with its value type and label. *)
Theorem Collect_sends_catalog_stat (c : StatsCollector)
    (record0 : binrpc.RawRecord) (rest : list binrpc.RawRecord)
    (before after : list binrpc.StructItem)
    (statKey label value : string) (d : Desc) (valueType : ValueType)
    (f : strconv.float64) :
  snd (execRPCCommand c "stats.fetch" "all") = Ok (record0 :: rest) ->
  fst (binrpc.StructItems record0)
  = before ++ binrpc.mkStructItem statKey (binrpc.TypeString value) :: after ->
  (forall later, later ∈ after -> binrpc.Key later <> statKey) ->
  (statKey, label, d, valueType) ∈ catalog ->
  ParseFloat value = Some f ->
  mkMetric d valueType f (if String.eqb label "" then [] else [label])
  ∈ fst (Collect c).
Proof.
  intros Hrpc Hitems Hlast Hcat Hf.
  rewrite Collect_sent, (fetchStats_Ok _ _ _ Hrpc).
  apply elem_of_app. right. apply elem_of_app. left.
  rewrite produceMetrics_catalogSample.
  apply list_elem_of_In, in_flat_map. exists (statKey, label, d, valueType).
  split; [now apply list_elem_of_In |].
  unfold catalogSample, labelsOf.
  rewrite Hitems.
  rewrite (foldl_statItem_last ∅ before after
             (binrpc.mkStructItem statKey (binrpc.TypeString value)) Hlast).
  simpl. rewrite Hf. destruct (String.eqb label ""); now left.
Qed.


End Collector.

(** ** The properties at the sample data *)

(** C1, the claim refuted.  With a socket path and a host both configured,
    [execRPCCommand] dials TCP [host:port], not the domain socket. *)
Lemma socket_path_does_not_take_precedence :
  socketPath bothConfigured <> ""
  /\ List.filter isDial
       (fst (execRPCCommand (replyWith []) bothConfigured "stats.fetch" "all"))
     = [net.Dialed "tcp" "127.0.0.1:3012"]
  /\ List.filter isDial
       (fst (execRPCCommand (replyWith []) bothConfigured "stats.fetch" "all"))
     <> [net.Dialed "unix" (socketPath bothConfigured)].
Proof. repeat split; [discriminate | discriminate]. Qed.

(** C2, the code at the failing input.  When the invoker returns no record
    at all, [fetchStats] neither returns a map nor an error: indexing the
    first record panics, and the panic ends the collection cycle. *)
Theorem fetchStats_panics_on_empty_reply :
  snd (execRPCCommand (replyWith []) socketOnly "stats.fetch" "all") = Ok []
  /\ fetchStats (replyWith []) socketOnly
     = Panic "index out of range [0] with length 0"
  /\ snd (Collect integersOnly asciiOnly noLabels (replyWith []) socketOnly)
     = Some "index out of range [0] with length 0"
  /\ fetchPKGMemStats (replyWith []) socketOnly = Ok [].
Proof. repeat split. Qed.

(** C3, the claim refuted.  On the scenario map the three samples are named
    [kamailio_core_request_total], [kamailio_sl_reply_total] and
    [kamailio_custom_total]: none is on [kamailio_core_rcv_request_total]. *)
Lemma scenario_has_no_rcv_request_sample :
  map (fun s => prometheus.fqName (prometheus.desc s))
    (produceMetrics integersOnly noLabels scenarioStats
     ++ convertScriptedMetrics integersOnly asciiOnly noLabels scenarioStats)
  = ["kamailio_core_request_total"; "kamailio_sl_reply_total";
     "kamailio_custom_total"]
  /\ ~ In (prometheus.mkMetric (core_rcv_request_total noLabels)
            prometheus.CounterValue (strconv.roundInteger false 42) ["rcv"])
         (produceMetrics integersOnly noLabels scenarioStats
          ++ convertScriptedMetrics integersOnly asciiOnly noLabels
               scenarioStats).
Proof.
  split; [vm_compute; reflexivity |].
  vm_compute. intros [H | [H | [H | []]]]; discriminate H.
Qed.

(** C5, the claim refuted.  A reply whose first record is not a struct
    fails to decode into items, yet both fetches succeed, with empty
    data. *)
Lemma decode_failure_is_swallowed :
  snd (binrpc.StructItems (binrpc.TypeInt 500)) <> None
  /\ fetchStats (replyWith faultReply) socketOnly = Ok ∅
  /\ fetchPKGMemStats (replyWith faultReply) socketOnly
     = Ok [emptyMemoryEntry; emptyMemoryEntry].
Proof. repeat split. discriminate. Qed.

(** C6, the claim refuted.  The item [core.fwd_requests] of [mixedStats]
    carries an integer, so its string conversion fails; its key is in the
    map all the same, with the empty string. *)
Lemma unconverted_item_is_inserted :
  snd (binrpc.String (binrpc.TypeInt 7)) <> None
  /\ exists result : gmap string string,
       fetchStats (replyWith [mixedStats]) socketOnly = Ok result
       /\ result !! "core.fwd_requests" = Some ""
       /\ result !! "core.rcv_requests" = Some "42".
Proof.
  split; [discriminate |].
  eexists. split; [reflexivity |]. split; reflexivity.
Qed.

(** The amended C3 at the scenario map. *)
Lemma scenario_samples_witness :
  produceMetrics integersOnly noLabels scenarioStats
  ++ convertScriptedMetrics integersOnly asciiOnly noLabels scenarioStats
  = [ prometheus.mkMetric (core_request_total noLabels)
        prometheus.CounterValue (strconv.roundInteger false 42) ["rcv"];
      prometheus.mkMetric (sl_reply_total noLabels)
        prometheus.CounterValue (strconv.roundInteger false 10) ["200"];
      prometheus.mkMetric
        (prometheus.NewDesc "kamailio_custom_total"
           "Scripted metric custom_total" [] noLabels)
        prometheus.CounterValue (strconv.roundInteger false 5) [] ].
Proof.
  apply (scenario_samples integersOnly asciiOnly noLabels scenarioStats);
    try reflexivity.
  intros k [v Hk] _. unfold scenarioStats, scenarioKeys in *.
  destruct (decide (k = "core.rcv_requests")) as [-> | H1];
    [apply list_elem_of_here |].
  destruct (decide (k = "sl.200_replies")) as [-> | H2];
    [apply list_elem_of_further, list_elem_of_here |].
  destruct (decide (k = "script.custom_total")) as [-> | H3];
    [do 2 apply list_elem_of_further; apply list_elem_of_here |].
  rewrite !lookup_insert_ne, lookup_empty in Hk by congruence.
  discriminate Hk.
Defined.

(** C4 at [script.custom_total = 5] of the scenario map. *)
Lemma scripted_sample_witness :
  exists before after : list (string * string),
    map_to_list scenarioStats
    = before ++ ("script.custom_total", "5") :: after
    /\ convertScriptedMetrics integersOnly asciiOnly noLabels scenarioStats
       = flat_map (fun kv => convertScriptedMetric integersOnly asciiOnly
                               noLabels scenarioStats (fst kv)) before
         ++ [prometheus.mkMetric
               (prometheus.NewDesc "kamailio_custom_total"
                  "Scripted metric custom_total" [] noLabels)
               prometheus.CounterValue (strconv.roundInteger false 5) []]
         ++ flat_map (fun kv => convertScriptedMetric integersOnly asciiOnly
                                  noLabels scenarioStats (fst kv)) after.
Proof.
  destruct (scripted_sample integersOnly asciiOnly noLabels scenarioStats
              "custom_total" "5" (strconv.roundInteger false 5)
              eq_refl eq_refl)
    as (before & after & Hsplit & _ & _ & Hsamples).
  exists before, after. split; [exact Hsplit | exact Hsamples].
Defined.

(** The amended C5 at a reply packet that does not decode. *)
Lemma fetch_propagates_invoker_errors_only_witness :
  fetchStats garbledReply socketOnly = Err (errorString "invalid packet")
  /\ fetchPKGMemStats garbledReply socketOnly
     = Err (errorString "invalid packet")
  /\ fetchStats (replyWith faultReply) socketOnly = Ok ∅.
Proof.
  destruct (fetch_propagates_invoker_errors_only garbledReply socketOnly)
    as (Hstats & Hmem & _).
  destruct (fetch_propagates_invoker_errors_only (replyWith faultReply)
              socketOnly) as (_ & _ & Hitems & _).
  split; [apply Hstats; reflexivity |].
  split; [apply Hmem; reflexivity |].
  apply (Hitems (binrpc.TypeInt 500) [binrpc.TypeString "command not found"]);
    [reflexivity | discriminate].
Defined.

(** The amended C6 at [mixedStats]. *)
Lemma fetchStats_inserts_every_item_witness :
  exists result : gmap string string,
    fetchStats (replyWith [mixedStats]) socketOnly = Ok result
    /\ result !! "core.fwd_requests" = Some "".
Proof.
  destruct (fetchStats_inserts_every_item (replyWith [mixedStats]) socketOnly
              mixedStats [] eq_refl) as (result & Hfetch & _ & Hlast).
  exists result. split; [exact Hfetch |].
  apply (Hlast [binrpc.mkStructItem "core.rcv_requests" (binrpc.TypeString "42")]
           (binrpc.mkStructItem "core.fwd_requests" (binrpc.TypeInt 7)) []);
    [reflexivity |].
  intros later Hlater. now apply elem_of_nil in Hlater.
Defined.

(** [s] is the decimal text of the Go [int] [n]. *)
Ltac numeral n :=
  exists n; split;
  [ split; [apply Z.leb_le | apply Z.ltb_lt]; reflexivity | reflexivity ].

Lemma scenarioEntry_well_formed : wellFormedEntry scenarioEntry.
Proof.
  unfold wellFormedEntry, decimalNumeral, strconv.isInt, scenarioEntry. simpl.
  repeat split;
    first [ numeral 0 | numeral 123 | numeral 1 | numeral 1000 | numeral 500
          | numeral 900 | numeral 2000 | numeral 3 ].
Defined.

(** C7 at the scenario entry of the specification. *)
Lemma producePKGMemMetrics_well_formed_witness :
  wellFormedEntry scenarioEntry
  /\ exists used free realUsed total frags : strconv.float64,
       producePKGMemMetrics integersOnly noLabels [scenarioEntry]
       = [pkgSample noLabels scenarioEntry "used" used;
          pkgSample noLabels scenarioEntry "free" free;
          pkgSample noLabels scenarioEntry "real_used" realUsed;
          pkgSample noLabels scenarioEntry "total" total;
          pkgSample noLabels scenarioEntry "total_frags" frags].
Proof.
  split; [exact scenarioEntry_well_formed |].
  destruct (producePKGMemMetrics_well_formed integersOnly noLabels [] []
              scenarioEntry scenarioEntry_well_formed)
    as (used & free & realUsed & total & frags & _ & _ & _ & _ & _ & H).
  exists used, free, realUsed, total, frags. exact H.
Defined.

(** C8 at a stat of a module the catalog does not know. *)
Lemma no_sample_for_foreign_key_witness :
  produceMetrics integersOnly noLabels foreignStats
  = produceMetrics integersOnly noLabels scenarioStats
  /\ convertScriptedMetric integersOnly asciiOnly noLabels foreignStats
       "usrloc.registered_users" = [].
Proof.
  assert (Hcat : "usrloc.registered_users" ∉ catalogKeys noLabels).
  { apply (bool_decide_unpack _). vm_compute. exact I. }
  destruct (no_sample_for_foreign_key integersOnly asciiOnly noLabels
              scenarioStats "usrloc.registered_users" Hcat eq_refl)
    as (_ & _ & _ & _ & Hinsert).
  destruct (no_sample_for_foreign_key integersOnly asciiOnly noLabels
              foreignStats "usrloc.registered_users" Hcat eq_refl)
    as (_ & Hbody & _).
  split; [apply (Hinsert "17") | exact Hbody].
Defined.

(** C9 at a reply with a record that has no recognized item. *)
Lemma fetchPKGMemStats_fails_only_with_the_invoker_witness :
  fetchPKGMemStats (replyWith [foreignRecord; scenarioRecord]) socketOnly
  = Ok [emptyMemoryEntry; scenarioEntry]
  /\ fetchPKGMemStats unreachable socketOnly
     = Err (errorString "connection refused").
Proof.
  destruct (fetchPKGMemStats_fails_only_with_the_invoker
              (replyWith [foreignRecord; scenarioRecord]) socketOnly)
    as (_ & _ & Hok & _).
  destruct (fetchPKGMemStats_fails_only_with_the_invoker unreachable socketOnly)
    as (Herr & _).
  split; [exact (Hok _ eq_refl) | apply Herr; reflexivity].
Defined.

(** C10 at a reply of two records, one of them without recognized item. *)
Lemma fetchPKGMemStats_one_entry_per_record_witness :
  exists entries : list MemoryEntry,
    fetchPKGMemStats (replyWith [foreignRecord; scenarioRecord]) socketOnly
    = Ok entries
    /\ length entries = 2%nat
    /\ entries !! 0%nat = Some emptyMemoryEntry
    /\ (length (producePKGMemMetrics integersOnly noLabels entries)
        <= 5 * length entries)%nat.
Proof.
  destruct (fetchPKGMemStats_one_entry_per_record integersOnly noLabels
              (replyWith [foreignRecord; scenarioRecord]) socketOnly
              [foreignRecord; scenarioRecord] eq_refl)
    as (entries & Hfetch & Hlen & Hempty & _ & Hbound & _).
  exists entries. repeat split; try assumption.
  apply (Hempty 0%nat foreignRecord eq_refl).
  intros item Hitem. simpl in Hitem.
  repeat (apply elem_of_cons in Hitem as [-> | Hitem]); try reflexivity.
  now apply elem_of_nil in Hitem.
Defined.

(** ** Further properties at the sample data *)

(** X21.  [fetchStats] reads the first record of the reply and nothing
    else: two replies that start with the same record give the same
    result, whatever follows. *)
Theorem fetchStats_first_record_only (world1 world2 : net.Network)
    (c1 c2 : StatsCollector) (record0 : binrpc.RawRecord)
    (rest1 rest2 : list binrpc.RawRecord) :
  snd (execRPCCommand world1 c1 "stats.fetch" "all") = Ok (record0 :: rest1) ->
  snd (execRPCCommand world2 c2 "stats.fetch" "all") = Ok (record0 :: rest2) ->
  fetchStats world1 c1 = fetchStats world2 c2.
Proof.
  intros H1 H2.
  now rewrite (fetchStats_Ok _ _ _ _ H1), (fetchStats_Ok _ _ _ _ H2).
Qed.

Lemma fetchStats_first_record_only_witness :
  fetchStats (replyWith [mixedStats]) socketOnly
  = fetchStats (replyWith [mixedStats; scenarioRecord]) bothConfigured.
Proof.
  apply (fetchStats_first_record_only _ _ _ _ mixedStats [] [scenarioRecord]);
    reflexivity.
Defined.

Lemma execRPCCommand_returns_records_witness :
  snd (execRPCCommand (replyWith faultReply) socketOnly "pkg.stats" "")
  = Ok faultReply.
Proof.
  apply (execRPCCommand_returns_records (replyWith faultReply) socketOnly
           "pkg.stats" "" faultReply).
  exists 1%nat, "cookie". repeat split.
Defined.

Lemma Collect_panics_iff_empty_stats_reply_witness :
  snd (Collect integersOnly asciiOnly noLabels
         (kamailio [scenarioRecord] []) socketOnly) <> None.
Proof.
  apply (proj1 (Collect_panics_iff_empty_stats_reply integersOnly asciiOnly
                  noLabels (kamailio [scenarioRecord] []) socketOnly)).
  reflexivity.
Defined.

Lemma Collect_unreachable_witness :
  Collect integersOnly asciiOnly noLabels unreachable bothConfigured
  = ([], None).
Proof.
  apply (Collect_unreachable integersOnly asciiOnly noLabels unreachable
           bothConfigured (errorString "connection refused")).
  reflexivity.
Defined.

Lemma convertStatToMetric_emits_witness :
  convertStatToMetric integersOnly scenarioStats "sl.200_replies" "200"
    (sl_reply_total noLabels) prometheus.CounterValue
  = [prometheus.mkMetric (sl_reply_total noLabels) prometheus.CounterValue
       (strconv.roundInteger false 10) ["200"]].
Proof.
  apply (proj2 (convertStatToMetric_emits integersOnly scenarioStats
                  "sl.200_replies" "200" (sl_reply_total noLabels)
                  prometheus.CounterValue)).
  exists "10", (strconv.roundInteger false 10). repeat split.
Defined.

Lemma produceMetrics_catalog_order_witness :
  In (prometheus.mkMetric (sl_reply_total noLabels) prometheus.CounterValue
        (strconv.roundInteger false 10) ["200"])
    (produceMetrics integersOnly noLabels scenarioStats).
Proof.
  destruct (produceMetrics_catalog_order integersOnly noLabels scenarioStats)
    as (_ & _ & Hin).
  apply list_elem_of_In.
  apply (Hin "sl.200_replies" "200" (sl_reply_total noLabels)
           prometheus.CounterValue "10" (strconv.roundInteger false 10));
    [| reflexivity | reflexivity].
  apply list_elem_of_In. vm_compute. tauto.
Defined.

Lemma translators_disjoint_witness :
  convertScriptedMetric integersOnly asciiOnly noLabels scenarioStats
    "core.rcv_requests" = []
  /\ catalogFor noLabels "script.custom_total" = [].
Proof.
  split.
  - apply (proj1 (translators_disjoint integersOnly asciiOnly noLabels
                    scenarioStats "core.rcv_requests")).
    apply list_elem_of_In. vm_compute. tauto.
  - apply (proj2 (translators_disjoint integersOnly asciiOnly noLabels
                    scenarioStats "script.custom_total")).
    reflexivity.
Defined.

Lemma scripted_names_ignore_case_witness :
  exists s1 s2 : prometheus.Metric,
    In s1 (convertScriptedMetrics integersOnly asciiOnly noLabels caseStats)
    /\ In s2 (convertScriptedMetrics integersOnly asciiOnly noLabels caseStats)
    /\ prometheus.val s1 = strconv.roundInteger false 3
    /\ prometheus.val s2 = strconv.roundInteger false 4
    /\ prometheus.desc s1 = prometheus.desc s2.
Proof.
  destruct (scripted_names_ignore_case integersOnly asciiOnly noLabels
              caseStats "Calls" "calls" "3" "4"
              (strconv.roundInteger false 3) (strconv.roundInteger false 4)
              eq_refl eq_refl eq_refl eq_refl eq_refl)
    as (s1 & s2 & _ & _ & H1 & H2 & V1 & V2 & Hd).
  exists s1, s2. apply list_elem_of_In in H1, H2.
  exact (conj H1 (conj H2 (conj V1 (conj V2 Hd)))).
Defined.

Lemma scripted_upper_case_total_is_gauge_witness :
  convertScriptedMetric integersOnly asciiOnly noLabels shoutedStats
    "script.REQ_TOTAL"
  = [prometheus.mkMetric
       (prometheus.NewDesc "kamailio_req_total" "Scripted metric req_total"
          [] noLabels)
       prometheus.GaugeValue (strconv.roundInteger false 9) []].
Proof.
  apply (scripted_upper_case_total_is_gauge integersOnly asciiOnly noLabels
           shoutedStats "REQ" "9" (strconv.roundInteger false 9));
    reflexivity.
Defined.

Lemma memoryEntryOf_last_integer_wins_witness :
  memoryField "used" (memoryEntryOf repeatedRecord) = "2".
Proof.
  apply (memoryEntryOf_last_integer_wins repeatedRecord "used" 2
           [binrpc.mkStructItem "used" (binrpc.TypeInt 1)]
           [binrpc.mkStructItem "used" (binrpc.TypeString "x")]).
  - apply list_elem_of_In. vm_compute. tauto.
  - reflexivity.
  - intros later Hlater _.
    apply list_elem_of_singleton in Hlater as ->. reflexivity.
Defined.

Lemma scenarioRecord_setsField (key : string) (n : Z) :
  In (key, binrpc.TypeInt n)
    [("used", binrpc.TypeInt 1000); ("free", binrpc.TypeInt 500);
     ("real_used", binrpc.TypeInt 900); ("total_size", binrpc.TypeInt 2000);
     ("total_frags", binrpc.TypeInt 3)] ->
  setsField scenarioRecord key n.
Proof.
  assert (Hnone : forall (key : string) (l : list binrpc.StructItem),
            forallb (fun it => negb (String.eqb (binrpc.Key it) key)) l = true ->
            forall later, later ∈ l -> binrpc.Key later = key ->
                          isInteger (binrpc.Value later) = false).
  { intros k l Hall later Hin Hk. apply list_elem_of_In in Hin.
    pose proof (proj1 (forallb_forall _ _) Hall later Hin) as H.
    cbv beta in H. rewrite Hk, String.eqb_refl in H. discriminate H. }
  intros [[= <- <-] | [[= <- <-] | [[= <- <-] | [[= <- <-] | [[= <- <-] | []]]]]];
    unfold setsField, scenarioRecord; cbn [binrpc.StructItems fst map snd].
  - exists (firstn 3 (fst (binrpc.StructItems scenarioRecord))),
           (skipn 4 (fst (binrpc.StructItems scenarioRecord))).
    split; [reflexivity | now apply Hnone].
  - exists (firstn 4 (fst (binrpc.StructItems scenarioRecord))),
           (skipn 5 (fst (binrpc.StructItems scenarioRecord))).
    split; [reflexivity | now apply Hnone].
  - exists (firstn 5 (fst (binrpc.StructItems scenarioRecord))),
           (skipn 6 (fst (binrpc.StructItems scenarioRecord))).
    split; [reflexivity | now apply Hnone].
  - exists (firstn 6 (fst (binrpc.StructItems scenarioRecord))),
           (skipn 7 (fst (binrpc.StructItems scenarioRecord))).
    split; [reflexivity | now apply Hnone].
  - exists (firstn 7 (fst (binrpc.StructItems scenarioRecord))),
           (skipn 8 (fst (binrpc.StructItems scenarioRecord))).
    split; [reflexivity | now apply Hnone].
Defined.

Lemma record_to_samples_witness :
  map prometheus.val
    (producePKGMemMetrics integersOnly noLabels [memoryEntryOf scenarioRecord])
  = [floatOfInt 1000; floatOfInt 500; floatOfInt 900; floatOfInt 2000;
     floatOfInt 3].
Proof.
  rewrite (record_to_samples integersOnly noLabels scenarioRecord
             1000 500 900 2000 3);
    [reflexivity | | | | | | | | | |];
    try (apply scenarioRecord_setsField; simpl; tauto);
    (split; [apply Z.leb_le | apply Z.ltb_lt]; reflexivity).
Defined.

Lemma mixedStats_keys :
  NoDup (map binrpc.Key (fst (binrpc.StructItems mixedStats))).
Proof. apply (bool_decide_unpack _). vm_compute. exact I. Defined.

Lemma fetchStats_distinct_keys_witness :
  exists result : gmap string string,
    fetchStats (replyWith [mixedStats]) socketOnly = Ok result
    /\ size result = 2%nat
    /\ result !! "core.rcv_requests" = Some "42".
Proof.
  destruct (fetchStats_distinct_keys (replyWith [mixedStats]) socketOnly
              mixedStats [] eq_refl mixedStats_keys)
    as (result & Hfetch & Hsize & Hlookup).
  exists result. split; [exact Hfetch |]. split; [exact Hsize |].
  apply Hlookup.
  exists (binrpc.mkStructItem "core.rcv_requests" (binrpc.TypeString "42")).
  split; [apply list_elem_of_In; vm_compute; tauto | split; reflexivity].
Defined.

Lemma fetchStats_non_string_stat_is_dropped_witness :
  exists result : gmap string string,
    fetchStats (replyWith [mixedStats]) socketOnly = Ok result
    /\ convertStatToMetric integersOnly result "core.fwd_requests" "fwd"
         (core_request_total noLabels) prometheus.CounterValue = [].
Proof.
  destruct (fetchStats_non_string_stat_is_dropped integersOnly asciiOnly
              noLabels (replyWith [mixedStats]) socketOnly mixedStats []
              [binrpc.mkStructItem "core.rcv_requests" (binrpc.TypeString "42")]
              [] (binrpc.mkStructItem "core.fwd_requests" (binrpc.TypeInt 7))
              eq_refl eq_refl)
    as (result & Hfetch & Hconv & _).
  - intros later Hlater. now apply elem_of_nil in Hlater.
  - intros s. discriminate.
  - exists result. split; [exact Hfetch | apply Hconv].
Defined.

Lemma Collect_sends_catalog_stat_witness :
  In (prometheus.mkMetric (core_request_total noLabels)
        prometheus.CounterValue (strconv.roundInteger false 42) ["rcv"])
    (fst (Collect integersOnly asciiOnly noLabels
            (kamailio [scenarioRecord] [mixedStats]) socketOnly)).
Proof.
  apply list_elem_of_In.
  apply (Collect_sends_catalog_stat integersOnly asciiOnly noLabels
           (kamailio [scenarioRecord] [mixedStats]) socketOnly mixedStats []
           [] [binrpc.mkStructItem "core.fwd_requests" (binrpc.TypeInt 7)]
           "core.rcv_requests" "rcv" "42" (core_request_total noLabels)
           prometheus.CounterValue (strconv.roundInteger false 42));
    try reflexivity.
  - intros later Hlater. apply list_elem_of_singleton in Hlater as ->.
    discriminate.
  - apply list_elem_of_In. vm_compute. tauto.
Defined.
